(** * Game ledger service (server.js): a shallow embedding and its properties

    The service is a set of Express route handlers over one SQLite handle.
    Each handler validates the JSON body by JavaScript truthiness, issues
    one to three parameterised statements through callbacks, and answers
    with a status and a body.

    The embedding keeps that shape:
    - [JS]: truthiness, [a || null], numbers as doubles, number
      printing, and the part of [Date] the handlers call ([Date.now],
      [new Date], [toISOString]);
    - [Users], [Boosts], [Logs]: the three tables of [setupDatabase];
    - a state monad over the connection, which carries the database and
      the list of statements issued so far;
    - [apiRouter]: the seven route handlers;
    - [request], [handle], [run]: the routes as one dispatch, and
      sequences of requests served in order.

    Request fields are read at the types the interface documents:
    identifiers and tags are JSON strings, amounts are JSON integers, and
    [None] is a field that is absent or [null].  An amount is carried as
    the integer it denotes; JavaScript holds it in a double and SQLite in
    a 64-bit integer or a double, and [to_double], [sql_add] and
    [sql_subtract] round where they do: exactly up to 2^53 in magnitude,
    to the nearest double beyond.  Handlers are run one at a time, each
    to completion. *)

From Stdlib Require Import ZArith String Ascii List DecimalString Lia Bool.
From stdpp Require Import gmap strings list fin_maps.

Local Open Scope Z_scope.

(** ** JavaScript values and built-ins used by the handlers *)

Module JS.

(** [!x] is [negb (truthy x)]. *)
Class Truthy (A : Type) := truthy : A -> bool.

#[export] Instance truthy_string : Truthy string :=
  fun s => match s with EmptyString => false | String _ _ => true end.

#[export] Instance truthy_number : Truthy Z :=
  fun n => negb (n =? 0).

(** [undefined] and [null] are falsy. *)
#[export] Instance truthy_field {A} `{Truthy A} : Truthy (option A) :=
  fun o => match o with Some a => truthy a | None => false end.

(** [x || null] *)
Definition or_null {A} `{Truthy A} (x : option A) : option A :=
  if truthy x then x else None.

(** *** Numbers *)

(** A number is a double.  The integers among the doubles are those of
    magnitude up to 2^53 and, beyond, the multiples of a power of two
    with a 53-bit quotient.  [round_magnitude m] is the double nearest
    to the integer [m >= 0], a tie going to the even quotient (below
    2^1024, where a double overflows). *)
Definition round_magnitude (m : Z) : Z :=
  if m <? 2 ^ 53 then m
  else
    let e := Z.log2 m - 52 in
    let q := m / 2 ^ e in
    let r := m mod 2 ^ e in
    if 2 * r <? 2 ^ e then q * 2 ^ e
    else if 2 ^ e <? 2 * r then (q + 1) * 2 ^ e
    else (q + q mod 2) * 2 ^ e.

(** The double nearest to the integer [n]: what a 64-bit integer of
    SQLite becomes when it is handed to JavaScript or enters a floating
    point operation.  A number of the body is a double already, and is
    left as it is. *)
Definition to_double (n : Z) : Z :=
  if n <? 0 then - round_magnitude (- n) else round_magnitude n.

(** The integers a finite double holds. *)
Definition is_double (n : Z) : Prop :=
  Z.abs n < 2 ^ 1024 /\ to_double n = n.

(** Number-to-string conversion inside a template literal, for integers
    of magnitude below 10^21 (from there on JavaScript prints an
    exponent). *)
Definition number_to_string (n : Z) : string :=
  NilZero.string_of_int (Z.to_int n).

(** *** Dates (ECMAScript, Date objects) *)

Inductive error := RangeError (message : string).

Inductive completion (A : Type) :=
| Normal (a : A)
| Throw (e : error).
Arguments Normal {A} a.
Arguments Throw {A} e.

Definition msPerDay : Z := 86400000.
Definition msPerHour : Z := 3600000.
Definition msPerMinute : Z := 60000.
Definition msPerSecond : Z := 1000.

(** A time value is a number of milliseconds since the epoch, or NaN,
    written [None]. *)
Definition time_value := option Z.

Definition max_time : Z := 8640000000000000.

Definition TimeClip (t : Z) : time_value :=
  if Z.abs t <=? max_time then Some t else None.

(** [new Date(value)] for a numeric [value]. *)
Definition new_Date (value : Z) : time_value := TimeClip value.

Definition Day (t : Z) : Z := t / msPerDay.
Definition TimeWithinDay (t : Z) : Z := t mod msPerDay.

Definition DaysInYear (y : Z) : Z :=
  if negb (y mod 4 =? 0) then 365
  else if negb (y mod 100 =? 0) then 366
  else if negb (y mod 400 =? 0) then 365
  else 366.

Definition DayFromYear (y : Z) : Z :=
  365 * (y - 1970) + (y - 1969) / 4 - (y - 1901) / 100 + (y - 1601) / 400.

(** The largest [y] with [DayFromYear y <= d]: the estimate from the
    mean year length is off by at most one. *)
Definition YearFromDay (d : Z) : Z :=
  let y0 := 1970 + (400 * d) / 146097 in
  if DayFromYear (y0 + 1) <=? d then y0 + 1
  else if DayFromYear y0 <=? d then y0
  else y0 - 1.

Definition YearFromTime (t : Z) : Z := YearFromDay (Day t).

Definition InLeapYear (t : Z) : Z :=
  if DaysInYear (YearFromTime t) =? 366 then 1 else 0.

Definition DayWithinYear (t : Z) : Z := Day t - DayFromYear (YearFromTime t).

(** First day of month [m] (0-based) within a year, [leap] being 0 or 1. *)
Definition month_start (leap m : Z) : Z :=
  match m with
  | 0 => 0
  | 1 => 31
  | 2 => 59 + leap
  | 3 => 90 + leap
  | 4 => 120 + leap
  | 5 => 151 + leap
  | 6 => 181 + leap
  | 7 => 212 + leap
  | 8 => 243 + leap
  | 9 => 273 + leap
  | 10 => 304 + leap
  | _ => 334 + leap
  end.

Definition month_of_day (leap dwy : Z) : Z :=
  if dwy <? 31 then 0
  else if dwy <? 59 + leap then 1
  else if dwy <? 90 + leap then 2
  else if dwy <? 120 + leap then 3
  else if dwy <? 151 + leap then 4
  else if dwy <? 181 + leap then 5
  else if dwy <? 212 + leap then 6
  else if dwy <? 243 + leap then 7
  else if dwy <? 273 + leap then 8
  else if dwy <? 304 + leap then 9
  else if dwy <? 334 + leap then 10
  else 11.

Definition MonthFromTime (t : Z) : Z :=
  month_of_day (InLeapYear t) (DayWithinYear t).

Definition DateFromTime (t : Z) : Z :=
  DayWithinYear t - month_start (InLeapYear t) (MonthFromTime t) + 1.

Definition HourFromTime (t : Z) : Z := (t / msPerHour) mod 24.
Definition MinFromTime (t : Z) : Z := (t / msPerMinute) mod 60.
Definition SecFromTime (t : Z) : Z := (t / msPerSecond) mod 60.
Definition msFromTime (t : Z) : Z := t mod msPerSecond.

Definition digit (d : Z) : ascii :=
  ascii_of_N (48 + Z.to_N (d mod 10)).

(** The last [width] decimal digits of [n], zero-padded, before [rest]. *)
Fixpoint digits (width : nat) (n : Z) (rest : string) : string :=
  match width with
  | O => rest
  | S w => digits w (n / 10) (String (digit n) rest)
  end.

(** Years 0 to 9999 take four digits; any other year takes a sign and
    six digits. *)
Definition year_string (y : Z) (rest : string) : string :=
  if (0 <=? y) && (y <=? 9999) then digits 4 y rest
  else if y <? 0 then String "-" (digits 6 (- y) rest)
  else String "+" (digits 6 y rest).

Definition iso_string (t : Z) : string :=
  year_string (YearFromTime t)
    (String "-" (digits 2 (MonthFromTime t + 1)
    (String "-" (digits 2 (DateFromTime t)
    (String "T" (digits 2 (HourFromTime t)
    (String ":" (digits 2 (MinFromTime t)
    (String ":" (digits 2 (SecFromTime t)
    (String "." (digits 3 (msFromTime t) "Z")))))))))))).

(** [Date.prototype.toISOString]: throws on an invalid date. *)
Definition toISOString (d : time_value) : completion string :=
  match d with
  | None => Throw (RangeError "Invalid time value")
  | Some t => Normal (iso_string t)
  end.

End JS.
Export JS.

(** ** The tables created by [setupDatabase] *)

Module Users.
(** [users (id TEXT PRIMARY KEY, username TEXT,
    total_clicks INTEGER DEFAULT 0, total_tokens INTEGER DEFAULT 0)];
    the primary key is the key of the map. *)
Record row := {
  username : option string;
  total_clicks : Z;
  total_tokens : Z
}.

(** The row of [INSERT INTO users (id, username)]: both counters take
    their column default. *)
Definition inserted (name : option string) : row :=
  {| username := name; total_clicks := 0; total_tokens := 0 |}.
End Users.

Module Boosts.
(** [boosts (id INTEGER PRIMARY KEY AUTOINCREMENT, user_id TEXT,
    boost_type TEXT, active_until TIMESTAMP)] *)
Record row := {
  id : Z;
  user_id : string;
  boost_type : string;
  active_until : string
}.
End Boosts.

Module Logs.
(** [logs (user_id TEXT, action TEXT, timestamp DATETIME)] *)
Record row := {
  user_id : string;
  action : string;
  timestamp : string
}.
End Logs.

Record tables := {
  users : gmap string Users.row;
  boosts : list Boosts.row;
  logs : list Logs.row
}.

(** The handle [db], once it is open.  [NoTables] is the handle without
    its schema, as it is until [setupDatabase] has run: every statement
    of the handlers reports an error (no such table). *)
Inductive database :=
| NoTables
| Ready (t : tables).

Definition setupDatabase (d : database) : database :=
  match d with
  | NoTables => Ready {| users := ∅; boosts := []; logs := [] |}
  | Ready t => Ready t
  end.

(** [new sqlite3.Database(":memory:", callback)] when the open succeeds:
    the callback calls [setupDatabase].  A handle that failed to open
    runs no statement and calls no callback, so that no request reaching
    the store is answered; that handle is not a [database] of this
    model. *)
Definition open_database : database := setupDatabase NoTables.

(** ** The statements of the handlers *)

Inductive sql :=
| UpsertUser (id : string) (name : option string)
| AddClick (reward : Z) (id : string)
| SubtractTokens (amount : Z) (id : string)
| InsertBoost (user_id boost_type active_until : string)
| SelectTokens (id : string)
| SelectActiveBoost (user_id now : string)
| SelectUser (id : string).

Definition set_username (name : option string) (r : Users.row) : Users.row :=
  {| Users.username := name;
     Users.total_clicks := Users.total_clicks r;
     Users.total_tokens := Users.total_tokens r |}.

(** *** Arithmetic on a column and a parameter *)

(** The driver binds a number as an INTEGER when it is a 32-bit
    integer, and as a REAL otherwise. *)
Definition is_int32 (n : Z) : bool := (- 2 ^ 31 <=? n) && (n <? 2 ^ 31).

(** A column of INTEGER affinity stores an integral value as a 64-bit
    INTEGER when it fits, and as a REAL when it does not.  (The one
    value that can be held either way is -2^63, taken here as an
    INTEGER; the properties that depend on it leave it out.) *)
Definition is_int64 (n : Z) : bool := (- 2 ^ 63 <=? n) && (n <? 2 ^ 63).

(** [column + ?]: the sum of two INTEGERs is their integer sum unless it
    overflows 64 bits; every other sum is the floating point sum of the
    operands as doubles, which is the double nearest to their sum (as
    long as that is below 2^1024).  An integral REAL result that fits is
    stored as an INTEGER again. *)
Definition sql_add (stored param : Z) : Z :=
  if is_int32 param && is_int64 stored && is_int64 (stored + param)
  then stored + param
  else to_double (to_double stored + to_double param).

(** [column - ?], likewise. *)
Definition sql_subtract (stored param : Z) : Z :=
  if is_int32 param && is_int64 stored && is_int64 (stored - param)
  then stored - param
  else to_double (to_double stored - to_double param).

Arguments to_double : simpl never.
Arguments sql_add : simpl never.
Arguments sql_subtract : simpl never.

(** [SET total_clicks = total_clicks + 1, total_tokens = total_tokens + ?];
    [total_clicks + 1] is a sum of INTEGERs. *)
Definition add_click (reward : Z) (r : Users.row) : Users.row :=
  {| Users.username := Users.username r;
     Users.total_clicks := Users.total_clicks r + 1;
     Users.total_tokens := sql_add (Users.total_tokens r) reward |}.

(** [SET total_tokens = total_tokens - ?] *)
Definition subtract_tokens (amount : Z) (r : Users.row) : Users.row :=
  {| Users.username := Users.username r;
     Users.total_clicks := Users.total_clicks r;
     Users.total_tokens := sql_subtract (Users.total_tokens r) amount |}.

(** [INSERT ... ON CONFLICT(id) DO UPDATE SET username = excluded.username] *)
Definition upsert_user (id : string) (name : option string)
    (us : gmap string Users.row) : gmap string Users.row :=
  match us !! id with
  | Some r => <[id := set_username name r]> us
  | None => <[id := Users.inserted name]> us
  end.

(** AUTOINCREMENT: one more than the largest id in use. *)
Definition next_boost_id (bs : list Boosts.row) : Z :=
  1 + foldr (fun r m => Z.max (Boosts.id r) m) 0 bs.

Definition insert_boost (user_id boost_type active_until : string)
    (bs : list Boosts.row) : list Boosts.row :=
  bs ++ [ {| Boosts.id := next_boost_id bs;
             Boosts.user_id := user_id;
             Boosts.boost_type := boost_type;
             Boosts.active_until := active_until |} ].

(** [WHERE user_id = ? AND active_until > ?]; text is compared byte by
    byte. *)
Definition boost_matches (user_id now : string) (r : Boosts.row) : bool :=
  bool_decide (Boosts.user_id r = user_id) && String.ltb now (Boosts.active_until r).

(** [ORDER BY active_until DESC LIMIT 1]: among equal keys the earlier
    row stays first. *)
Definition later_boost (best : option Boosts.row) (r : Boosts.row) : option Boosts.row :=
  match best with
  | None => Some r
  | Some b =>
      if String.ltb (Boosts.active_until b) (Boosts.active_until r)
      then Some r else Some b
  end.

Definition select_active_boost (user_id now : string) (bs : list Boosts.row)
    : option Boosts.row :=
  foldl later_boost None (List.filter (boost_matches user_id now) bs).

(** The effect of a statement on the tables. *)
Definition exec (s : sql) (t : tables) : tables :=
  match s with
  | UpsertUser id name =>
      {| users := upsert_user id name (users t); boosts := boosts t; logs := logs t |}
  | AddClick reward id =>
      {| users := alter (add_click reward) id (users t); boosts := boosts t; logs := logs t |}
  | SubtractTokens amount id =>
      {| users := alter (subtract_tokens amount) id (users t); boosts := boosts t; logs := logs t |}
  | InsertBoost u b a =>
      {| users := users t; boosts := insert_boost u b a (boosts t); logs := logs t |}
  | SelectTokens _ | SelectActiveBoost _ _ | SelectUser _ => t
  end.

(** ** JSON bodies *)

Inductive json_value :=
| JNull
| JNumber (n : Z)
| JString (s : string).

(** A flat JSON object, fields in order. *)
Definition json_object : Type := list (string * json_value).

Definition json_text (s : option string) : json_value :=
  match s with Some s => JString s | None => JNull end.

(** The rows handed to [res.json], by selected column. *)
Definition boost_row (r : Boosts.row) : json_object :=
  [("boost_type", JString (Boosts.boost_type r));
   ("active_until", JString (Boosts.active_until r))].

Definition user_row (id : string) (r : Users.row) : json_object :=
  [("id", JString id);
   ("username", json_text (Users.username r));
   ("total_clicks", JNumber (to_double (Users.total_clicks r)));
   ("total_tokens", JNumber (to_double (Users.total_tokens r)))].

(** [req.body] after [bodyParser.json()], restricted to the fields the
    handlers destructure, each at its documented type: a string, or a
    number that is an integer. *)
Record body := {
  userId : option string;
  username : option string;
  clickReward : option Z;
  tokens : option Z;
  boostType : option string;
  price : option Z;
  duration : option Z
}.

(** ** The connection monad *)

Record conn := {
  db : database;
  issued : list sql
}.

Definition M (A : Type) : Type := conn -> A * conn.

Definition ret {A} (a : A) : M A := fun c => (a, c).

Definition bind {A B} (m : M A) (k : A -> M B) : M B :=
  fun c => let (a, c') := m c in k a c'.

Notation "'let*' x ':=' m 'in' k" := (bind m (fun x => k))
  (at level 10, x pattern, m at level 200, k at level 200, only parsing).

(** The [err] argument of a callback. *)
Inductive db_error := SqliteError.

(** [db.run(statement, params, function (err) ...)] *)
Definition db_run (s : sql) : M (option db_error) :=
  fun c =>
    match db c with
    | NoTables => (Some SqliteError, {| db := NoTables; issued := issued c ++ [s] |})
    | Ready t => (None, {| db := Ready (exec s t); issued := issued c ++ [s] |})
    end.

(** [db.get(query, params, (err, row) => ...)]; [pick] reads the first
    matching row. *)
Definition db_get {A} (s : sql) (pick : tables -> option A)
    : M (option db_error * option A) :=
  fun c =>
    match db c with
    | NoTables =>
        ((Some SqliteError, None), {| db := NoTables; issued := issued c ++ [s] |})
    | Ready t =>
        ((None, pick t), {| db := Ready t; issued := issued c ++ [s] |})
    end.

(** The [total_tokens] of the row is handed over as a number. *)
Definition get_tokens (id : string) : M (option db_error * option Z) :=
  db_get (SelectTokens id)
         (fun t => (fun r => to_double (Users.total_tokens r)) <$> users t !! id).

Definition get_active_boost (user_id now : string)
    : M (option db_error * option Boosts.row) :=
  db_get (SelectActiveBoost user_id now)
         (fun t => select_active_boost user_id now (boosts t)).

Definition get_user (id : string) : M (option db_error * option Users.row) :=
  db_get (SelectUser id) (fun t => users t !! id).

(** ** Responses *)

Inductive payload :=
| Text (s : string)
| Json (o : json_object).

(** What a request ends with: a response, or an exception thrown inside
    a callback, which nothing catches; the statements issued before the
    throw stand, no response is sent, and the process ends. *)
Inductive outcome :=
| Responded (status : Z) (p : payload)
| Uncaught (e : JS.error).

(** [res.status(code).send(text)] *)
Definition send (code : Z) (text : string) : M outcome :=
  ret (Responded code (Text text)).

(** [res.json(object)] *)
Definition send_json (o : json_object) : M outcome :=
  ret (Responded 200 (Json o)).

(** ** The routes of [apiRouter] *)

(** A handler reads the fields it destructures and rejects the request
    when one of them is falsy; a field that is [None] is falsy, so it
    takes the same 400 as a field that is 0 or empty.  In
    [row.total_tokens < amount] both sides are numbers: the balance as
    [get_tokens] hands it over, and the amount of the body, a double. *)

Module apiRouter.

(** [GET /health] *)
Definition health : M outcome :=
  send_json [("status", JString "ok")].

(** [POST /register] *)
Definition register (b : body) : M outcome :=
  match userId b with
  | Some uid =>
      if negb (truthy uid) then send 400 "Missing userId"
      else
        let* err := db_run (UpsertUser uid (or_null (username b))) in
        match err with
        | Some _ => send 500 "Error registering user."
        | None =>
            send_json
              [("message", JString ("User " +:+ uid +:+ " registered successfully."))]
        end
  | None => send 400 "Missing userId"
  end.

(** [POST /click] *)
Definition click (b : body) : M outcome :=
  match userId b, clickReward b with
  | Some uid, Some reward =>
      if negb (truthy uid) || negb (truthy reward)
      then send 400 "Missing userId or clickReward"
      else
        let* err := db_run (AddClick reward uid) in
        match err with
        | Some _ => send 500 "Database error."
        | None =>
            send_json
              [("message",
                JString ("Added " +:+ number_to_string reward
                         +:+ " tokens for user " +:+ uid +:+ "."))]
        end
  | _, _ => send 400 "Missing userId or clickReward"
  end.

(** [POST /claim-tokens] *)
Definition claim_tokens (b : body) : M outcome :=
  match userId b, tokens b with
  | Some uid, Some amount =>
      if negb (truthy uid) || negb (truthy amount)
      then send 400 "Missing userId or tokens"
      else
        let* (err, row) := get_tokens uid in
        match err, row with
        | Some _, _ => send 500 "Database error."
        | None, None => send 400 "Insufficient tokens."
        | None, Some balance =>
            if balance <? to_double amount then send 400 "Insufficient tokens."
            else
              let* err := db_run (SubtractTokens amount uid) in
              match err with
              | Some _ => send 500 "Error updating tokens."
              | None =>
                  send_json
                    [("message",
                      JString ("User " +:+ uid +:+ " claimed "
                               +:+ number_to_string amount +:+ " tokens."))]
              end
        end
  | _, _ => send 400 "Missing userId or tokens"
  end.

(** [POST /buy-boost]; [now] is what [Date.now()] returns.  For a clock
    reading of magnitude below 2^48 the products and the sum of
    [Date.now() + duration * 60 * 60 * 1000] come out in doubles as they
    do in integers whenever the result is a time value, and outside the
    range of time values whenever the integer result is. *)
Definition buy_boost (now : Z) (b : body) : M outcome :=
  match userId b, boostType b, price b, duration b with
  | Some uid, Some type, Some cost, Some hours =>
      if negb (truthy uid) || negb (truthy type)
         || negb (truthy cost) || negb (truthy hours)
      then send 400 "Missing required fields"
      else
        let* (err, row) := get_tokens uid in
        match err, row with
        | Some _, _ => send 500 "Database error."
        | None, None => send 400 "Insufficient tokens."
        | None, Some balance =>
            if balance <? to_double cost then send 400 "Insufficient tokens."
            else
              match toISOString (new_Date (now + hours * 60 * 60 * 1000)) with
              | Throw e => ret (Uncaught e)
              | Normal activeUntil =>
                  let* err := db_run (SubtractTokens cost uid) in
                  match err with
                  | Some _ => send 500 "Error updating tokens."
                  | None =>
                      let* err := db_run (InsertBoost uid type activeUntil) in
                      match err with
                      | Some _ => send 500 "Error activating boost."
                      | None =>
                          send_json
                            [("message",
                              JString ("Boost " +:+ type +:+ " purchased for user "
                                       +:+ uid +:+ "."));
                             ("activeUntil", JString activeUntil)]
                      end
                  end
              end
        end
  | _, _, _, _ => send 400 "Missing required fields"
  end.

(** [GET /active-boost/:userId]; [now] is the time of [new Date()]. *)
Definition active_boost (now : Z) (uid : string) : M outcome :=
  match toISOString (Some now) with
  | Throw e => ret (Uncaught e)
  | Normal current =>
      let* (err, row) := get_active_boost uid current in
      match err, row with
      | Some _, _ => send 500 "Database error."
      | None, None => send 404 "No active boost."
      | None, Some r => send_json (boost_row r)
      end
  end.

(** [GET /user/:userId] *)
Definition user (uid : string) : M outcome :=
  let* (err, row) := get_user uid in
  match err, row with
  | Some _, _ => send 500 "Database error."
  | None, None => send 404 "User not found."
  | None, Some r => send_json (user_row uid r)
  end.

End apiRouter.

(** A request served on database [d], with an empty statement log. *)
Definition serve {A} (m : M A) (d : database) : A * conn :=
  m {| db := d; issued := [] |}.

(** Requests served one after the other; the outcomes are kept in
    order.  An [Uncaught] outcome ends the process that serves: what a
    sequence shows after one is a host that survives the exception and
    goes on with the database as it was.  A property of every sequence
    is in particular one of every sequence that stops at its first
    [Uncaught]. *)
Fixpoint serve_all (ms : list (M outcome)) (d : database) : list outcome * database :=
  match ms with
  | [] => ([], d)
  | m :: rest =>
      let (o, c) := serve m d in
      let (os, d') := serve_all rest (db c) in
      (o :: os, d')
  end.

(** ** Vocabulary of the properties *)

(** Lexicographic combination of comparisons. *)
Definition then_compare (c rest : comparison) : comparison :=
  match c with Eq => rest | _ => c end.

(** Instants whose ISO-8601 text carries a plain four-digit year. *)
Definition four_digit_year (t : Z) : Prop := 0 <= YearFromTime t <= 9999.

(** The counters of a user, as [(total_clicks, total_tokens)]. *)
Definition counters (d : database) (uid : string) : option (Z * Z) :=
  match d with
  | NoTables => None
  | Ready t => (fun r => (Users.total_clicks r, Users.total_tokens r)) <$> users t !! uid
  end.

Definition balance (d : database) (uid : string) : option Z :=
  snd <$> counters d uid.

Definition nonnegative_balances (t : tables) : Prop :=
  forall uid r, users t !! uid = Some r -> 0 <= Users.total_tokens r.

(** The integers up to 2^53 in magnitude: each is a double, and so is
    every integer between two of them. *)
Definition safe_integer (n : Z) : Prop := Z.abs n <= 2 ^ 53.

(** A value the column holds as a 64-bit INTEGER. *)
Definition stored_integer (n : Z) : Prop := - 2 ^ 63 < n < 2 ^ 63.

(** Two sufficient reasons for [column + ?] to be the sum of the
    integers: nothing leaves the range where doubles are exact, or the
    parameter is bound as an INTEGER and the sum fits in 64 bits. *)
Definition exact_sum (stored param : Z) : Prop :=
  (safe_integer stored /\ safe_integer param /\ safe_integer (stored + param))
  \/ (stored_integer stored /\ is_int32 param = true
      /\ is_int64 (stored + param) = true).

(** The same for [column - ?]. *)
Definition exact_difference (stored param : Z) : Prop :=
  (safe_integer stored /\ safe_integer param /\ safe_integer (stored - param))
  \/ (stored_integer stored /\ is_int32 param = true
      /\ is_int64 (stored - param) = true).

(** Bodies of the requests of the scenario. *)
Definition register_request (uid : string) (name : option string) : body :=
  {| userId := Some uid; username := name; clickReward := None; tokens := None;
     boostType := None; price := None; duration := None |}.

Definition click_request (uid : string) (reward : Z) : body :=
  {| userId := Some uid; username := None; clickReward := Some reward; tokens := None;
     boostType := None; price := None; duration := None |}.

Definition claim_request (uid : string) (amount : Z) : body :=
  {| userId := Some uid; username := None; clickReward := None; tokens := Some amount;
     boostType := None; price := None; duration := None |}.

Definition boost_request (uid type : string) (cost hours : Z) : body :=
  {| userId := Some uid; username := None; clickReward := None; tokens := None;
     boostType := Some type; price := Some cost; duration := Some hours |}.

(** The scenario: register [u1], click three times for 5, then claim 10
    twice. *)
Definition after_clicks : list outcome * database :=
  serve_all
    [apiRouter.register (register_request "u1" None);
     apiRouter.click (click_request "u1" 5);
     apiRouter.click (click_request "u1" 5);
     apiRouter.click (click_request "u1" 5)]
    open_database.

Definition after_first_claim : list outcome * database :=
  serve_all [apiRouter.claim_tokens (claim_request "u1" 10)] (snd after_clicks).

Definition after_second_claim : list outcome * database :=
  serve_all [apiRouter.claim_tokens (claim_request "u1" 10)] (snd after_first_claim).

(** Two purchases by [u1] at the same instant: boost [short] for
    [hours1] hours, then boost [long] for [hours2] hours. *)
Definition purchase_time : Z := 1700000000000.

Definition two_boosts (hours1 hours2 : Z) : list outcome * database :=
  serve_all
    [apiRouter.register (register_request "u1" None);
     apiRouter.click (click_request "u1" 20);
     apiRouter.buy_boost purchase_time (boost_request "u1" "short" 5 hours1);
     apiRouter.buy_boost purchase_time (boost_request "u1" "long" 5 hours2)]
    open_database.

Definition tables_of (d : database) : tables :=
  match d with
  | NoTables => {| users := ∅; boosts := []; logs := [] |}
  | Ready t => t
  end.

(** The expiry instants of the rows of [two_boosts 1 2]. *)
Definition expiry_one_two (x : Boosts.row) : Z :=
  if String.eqb (Boosts.boost_type x) "short"
  then purchase_time + 1 * 3600000
  else purchase_time + 2 * 3600000.

(** A store with one user, for the worked instances. *)
Definition ann : Users.row :=
  {| Users.username := Some "ann"%string;
     Users.total_clicks := 3; Users.total_tokens := 15 |}.

Definition one_user : tables :=
  {| users := {[ "u1"%string := ann ]}; boosts := []; logs := [] |}.

(** Unfolds a handler down to the statements it issues. *)
Ltac run_handler :=
  unfold serve, apiRouter.register, apiRouter.click, apiRouter.claim_tokens,
    apiRouter.buy_boost, apiRouter.active_boost, apiRouter.user,
    get_tokens, get_active_boost, get_user, db_get, db_run, send, send_json,
    bind, ret;
  simpl.

(** ** Routing *)

(** A request as [apiRouter] dispatches it: the method and path select
    the handler, which receives the body or the path parameter; the
    routes that read the clock carry its reading. *)
Inductive request :=
| GetHealth
| PostRegister (b : body)
| PostClick (b : body)
| PostClaimTokens (b : body)
| PostBuyBoost (now : Z) (b : body)
| GetActiveBoost (now : Z) (uid : string)
| GetUser (uid : string).

Definition handle (r : request) : M outcome :=
  match r with
  | GetHealth => apiRouter.health
  | PostRegister b => apiRouter.register b
  | PostClick b => apiRouter.click b
  | PostClaimTokens b => apiRouter.claim_tokens b
  | PostBuyBoost now b => apiRouter.buy_boost now b
  | GetActiveBoost now uid => apiRouter.active_boost now uid
  | GetUser uid => apiRouter.user uid
  end.

(** The requests of [rs] served in order. *)
Definition run (rs : list request) (d : database) : list outcome * database :=
  serve_all (map handle rs) d.

(** The user a request names, in its body or in its path. *)
Definition request_user (r : request) : option string :=
  match r with
  | GetHealth => None
  | PostRegister b | PostClick b | PostClaimTokens b | PostBuyBoost _ b => userId b
  | GetActiveBoost _ uid | GetUser uid => Some uid
  end.

Definition is_register (r : request) : bool :=
  match r with PostRegister _ => true | _ => false end.

Definition is_buy_boost (r : request) : bool :=
  match r with PostBuyBoost _ _ => true | _ => false end.

(** The four ways in which a request changes the tables. *)
Inductive writes (t : tables) : request -> tables -> Prop :=
| writes_register b uid :
    userId b = Some uid -> truthy uid = true ->
    writes t (PostRegister b) (exec (UpsertUser uid (or_null (username b))) t)
| writes_click b uid reward :
    userId b = Some uid -> clickReward b = Some reward ->
    truthy uid = true -> truthy reward = true ->
    writes t (PostClick b) (exec (AddClick reward uid) t)
| writes_claim b uid amount row :
    userId b = Some uid -> tokens b = Some amount ->
    truthy uid = true -> truthy amount = true ->
    users t !! uid = Some row ->
    to_double amount <= to_double (Users.total_tokens row) ->
    writes t (PostClaimTokens b) (exec (SubtractTokens amount uid) t)
| writes_buy now b uid type cost hours row :
    userId b = Some uid -> boostType b = Some type ->
    price b = Some cost -> duration b = Some hours ->
    truthy uid = true -> truthy type = true ->
    truthy cost = true -> truthy hours = true ->
    users t !! uid = Some row ->
    to_double cost <= to_double (Users.total_tokens row) ->
    Z.abs (now + hours * 3600000) <= max_time ->
    writes t (PostBuyBoost now b)
      (exec (InsertBoost uid type (iso_string (now + hours * 3600000)))
         (exec (SubtractTokens cost uid) t)).

(** Splits the run of a handler into its branches. *)
Ltac split_handler :=
  unfold serve, handle, apiRouter.health, apiRouter.register, apiRouter.click,
    apiRouter.claim_tokens, apiRouter.buy_boost, apiRouter.active_boost,
    apiRouter.user, get_tokens, get_active_boost, get_user, db_get, db_run,
    send, send_json, bind, ret;
  cbn [db issued fst snd app toISOString];
  repeat match goal with
         | |- context [match ?x with _ => _ end] =>
             lazymatch x with
             | context [match _ with _ => _ end] => fail
             | _ => destruct x eqn:?
             end; cbn [db issued fst snd app toISOString]
         end.

(** The database after one request. *)
Definition after (r : request) (d : database) : database :=
  db (snd (serve (handle r) d)).

(** Turns the tests a branch has taken into facts about the request. *)
Ltac branch_facts :=
  repeat match goal with
         | H : _ || _ = false |- _ => apply orb_false_iff in H as [? ?]
         | H : negb _ = false |- _ => apply negb_false_iff in H
         | H : negb _ = true |- _ => apply negb_true_iff in H
         | H : _ <$> _ = Some _ |- _ => apply fmap_Some in H as (? & ? & ?)
         | H : _ <$> _ = None |- _ => apply fmap_None in H
         | H : (_ <? _) = false |- _ => apply Z.ltb_ge in H
         | H : (_ <? _) = true |- _ => apply Z.ltb_lt in H
         | H : context [?n + ?h * 60 * 60 * 1000] |- _ =>
             replace (n + h * 60 * 60 * 1000) with (n + h * 3600000) in H by lia
         end; subst.

Definition is_click (r : request) : bool :=
  match r with PostClick _ => true | _ => false end.

(** The database right after [new sqlite3.Database] succeeded and
    [setupDatabase] ran. *)
Definition fresh : database := open_database.

(** Referential integrity of [boosts.user_id], which the schema
    declares as a foreign key. *)
Definition boosts_reference_users (t : tables) : Prop :=
  forall x, In x (boosts t) -> is_Some (users t !! Boosts.user_id x).

(** A boost row as buy-boost writes it: a non-empty user and type, and
    the ISO-8601 text of a valid time value. *)
Definition boosts_well_formed (t : tables) : Prop :=
  forall x, In x (boosts t) ->
    truthy (Boosts.user_id x) = true /\ truthy (Boosts.boost_type x) = true
    /\ exists e, Z.abs e <= max_time /\ Boosts.active_until x = iso_string e.

Definition is_get (r : request) : bool :=
  match r with GetHealth | GetActiveBoost _ _ | GetUser _ => true | _ => false end.

Definition is_read (s : sql) : bool :=
  match s with
  | SelectTokens _ | SelectActiveBoost _ _ | SelectUser _ => true
  | _ => false
  end.

(** * Properties *)

(** ** Truthiness *)

Lemma truthy_string_nonempty (s : string) : truthy s = true <-> s <> ""%string.
Proof. destruct s; unfold truthy, truthy_string; split; intros; congruence. Qed.

Lemma truthy_number_nonzero (n : Z) : truthy n = true <-> n <> 0.
Proof.
  unfold truthy, truthy_number. rewrite negb_true_iff, Z.eqb_neq. tauto.
Qed.


Lemma or_null_truthy (s : string) : truthy s = true -> or_null (Some s) = Some s.
Proof. intros H. unfold or_null, truthy, truthy_field. now rewrite H. Qed.

Lemma or_null_falsy (o : option string) : truthy o = false -> or_null o = None.
Proof. intros H. unfold or_null. now rewrite H. Qed.

(** ** Numbers *)

(** *** Rounding to a double *)

Lemma round_small (m : Z) : 0 <= m <= 2 ^ 53 -> round_magnitude m = m.
Proof.
  intros [H0 H1]. unfold round_magnitude.
  destruct (Z.ltb_spec m (2 ^ 53)) as [|Hge]; [reflexivity|].
  assert (m = 2 ^ 53) as -> by lia. reflexivity.
Qed.

Lemma large_exponent (m : Z) : 2 ^ 53 <= m -> 1 <= Z.log2 m - 52.
Proof.
  intros Hm. assert (Z.log2 (2 ^ 53) <= Z.log2 m) by (apply Z.log2_le_mono; exact Hm).
  rewrite Z.log2_pow2 in H by lia. lia.
Qed.

Lemma large_bounds (m : Z) :
  2 ^ 53 <= m ->
  2 ^ 52 * 2 ^ (Z.log2 m - 52) <= m < 2 ^ 53 * 2 ^ (Z.log2 m - 52).
Proof.
  intros Hm. pose proof (large_exponent m Hm).
  destruct (Z.log2_spec m ltac:(lia)) as [L U].
  rewrite <- !Z.pow_add_r by lia.
  replace (52 + (Z.log2 m - 52)) with (Z.log2 m) by lia.
  replace (53 + (Z.log2 m - 52)) with (Z.succ (Z.log2 m)) by lia.
  lia.
Qed.

Lemma large_quotient (m : Z) :
  2 ^ 53 <= m -> 2 ^ 52 <= m / 2 ^ (Z.log2 m - 52) < 2 ^ 53.
Proof.
  intros Hm. pose proof (large_exponent m Hm).
  pose proof (large_bounds m Hm) as [L U].
  assert (0 < 2 ^ (Z.log2 m - 52)) by (apply Z.pow_pos_nonneg; lia).
  split.
  - apply Z.div_le_lower_bound; lia.
  - apply Z.div_lt_upper_bound; lia.
Qed.

Lemma round_large (m : Z) :
  2 ^ 53 <= m ->
  let e := Z.log2 m - 52 in
  let q := m / 2 ^ e in
  1 <= e /\ 2 ^ 52 <= q < 2 ^ 53 /\ 0 < 2 ^ e /\
  m = q * 2 ^ e + m mod 2 ^ e /\ 0 <= m mod 2 ^ e < 2 ^ e /\
  (round_magnitude m = q * 2 ^ e \/ round_magnitude m = (q + 1) * 2 ^ e) /\
  (2 * (m mod 2 ^ e) < 2 ^ e -> round_magnitude m = q * 2 ^ e) /\
  (2 ^ e < 2 * (m mod 2 ^ e) -> round_magnitude m = (q + 1) * 2 ^ e) /\
  (2 * (m mod 2 ^ e) = 2 ^ e -> round_magnitude m = (q + q mod 2) * 2 ^ e).
Proof.
  intros Hm e q.
  pose proof (large_exponent m Hm) as He. fold e in He.
  pose proof (large_quotient m Hm) as Hq. fold e in Hq. fold q in Hq.
  assert (HP : 0 < 2 ^ e) by (apply Z.pow_pos_nonneg; lia).
  pose proof (Z.div_mod m (2 ^ e) ltac:(lia)) as Hdm.
  pose proof (Z.mod_pos_bound m (2 ^ e) HP) as Hr.
  fold q in Hdm.
  assert (Hround : round_magnitude m =
    if 2 * (m mod 2 ^ e) <? 2 ^ e then q * 2 ^ e
    else if 2 ^ e <? 2 * (m mod 2 ^ e) then (q + 1) * 2 ^ e
    else (q + q mod 2) * 2 ^ e).
  { unfold round_magnitude. destruct (Z.ltb_spec m (2 ^ 53)); [lia|reflexivity]. }
  pose proof (Z.mod_pos_bound q 2 ltac:(lia)) as Hpar.
  repeat split; try lia.
  - rewrite Hround.
    destruct (Z.ltb_spec (2 * (m mod 2 ^ e)) (2 ^ e)); [now left|].
    destruct (Z.ltb_spec (2 ^ e) (2 * (m mod 2 ^ e))); [now right|].
    assert (q mod 2 = 0 \/ q mod 2 = 1) as [->| ->] by lia.
    + left. f_equal. lia.
    + now right.
  - intros. rewrite Hround. destruct (Z.ltb_spec (2 * (m mod 2 ^ e)) (2 ^ e)); [reflexivity|lia].
  - intros. rewrite Hround. destruct (Z.ltb_spec (2 * (m mod 2 ^ e)) (2 ^ e)); [lia|].
    destruct (Z.ltb_spec (2 ^ e) (2 * (m mod 2 ^ e))); [reflexivity|lia].
  - intros. rewrite Hround. destruct (Z.ltb_spec (2 * (m mod 2 ^ e)) (2 ^ e)); [lia|].
    destruct (Z.ltb_spec (2 ^ e) (2 * (m mod 2 ^ e))); [lia|reflexivity].
Qed.

Lemma round_large_bounds (m : Z) :
  2 ^ 53 <= m ->
  2 ^ 52 * 2 ^ (Z.log2 m - 52) <= round_magnitude m <= 2 ^ 53 * 2 ^ (Z.log2 m - 52).
Proof.
  intros Hm. destruct (round_large m Hm) as (He & Hq & HP & _ & _ & [-> | ->] & _).
  - split; apply Z.mul_le_mono_nonneg_r; lia.
  - split; apply Z.mul_le_mono_nonneg_r; lia.
Qed.

Lemma round_nonneg (m : Z) : 0 <= m -> 0 <= round_magnitude m.
Proof.
  intros Hm. destruct (Z.le_gt_cases m (2 ^ 53)).
  - rewrite round_small; lia.
  - pose proof (round_large_bounds m ltac:(lia)) as [L _].
    assert (0 < 2 ^ (Z.log2 m - 52)).
    { apply Z.pow_pos_nonneg; [lia|]. pose proof (large_exponent m ltac:(lia)). lia. }
    nia.
Qed.

Lemma round_monotone (a b : Z) :
  0 <= a <= b -> round_magnitude a <= round_magnitude b.
Proof.
  intros [Ha Hab].
  destruct (Z.le_gt_cases b (2 ^ 53)) as [Hb|Hb].
  { rewrite !round_small; lia. }
  pose proof (round_large_bounds b ltac:(lia)) as [Lb _].
  pose proof (large_exponent b ltac:(lia)) as Heb.
  destruct (Z.le_gt_cases a (2 ^ 53)) as [Ha'|Ha'].
  { rewrite (round_small a) by lia.
    assert (2 ^ 1 <= 2 ^ (Z.log2 b - 52)) by (apply Z.pow_le_mono_r; lia).
    change (2 ^ 1) with 2 in *. lia. }
  pose proof (round_large_bounds a ltac:(lia)) as [_ Ua].
  pose proof (large_exponent a ltac:(lia)) as Hea.
  assert (Hlog : Z.log2 a <= Z.log2 b) by (apply Z.log2_le_mono; lia).
  destruct (Z.eq_dec (Z.log2 a) (Z.log2 b)) as [Heq|Hne].
  - destruct (round_large a ltac:(lia)) as (_ & Hqa & HP & Hda & Hra & Ca & Da & Ua' & Ta).
    destruct (round_large b ltac:(lia)) as (_ & Hqb & _ & Hdb & Hrb & Cb & Db & Ub' & Tb).
    rewrite Heq in *.
    set (P := 2 ^ (Z.log2 b - 52)) in *.
    set (qa := a / P) in *. set (qb := b / P) in *.
    set (ra := a mod P) in *. set (rb := b mod P) in *.
    assert (Hq : qa <= qb) by (apply Z.div_le_mono; lia).
    pose proof (Z.mod_pos_bound qa 2 ltac:(lia)).
    pose proof (Z.mod_pos_bound qb 2 ltac:(lia)).
    assert (Hgoal : forall x y, x <= y -> x * P <= y * P)
      by (intros; apply Z.mul_le_mono_nonneg_r; lia).
    destruct (Z.eq_dec qa qb) as [Hqq|Hqq].
    + assert (ra <= rb) by (rewrite Hqq in Hda; lia).
      destruct (Z.lt_trichotomy (2 * ra) P) as [Hlt|[Heq'|Hgt]].
      * rewrite (Da Hlt). destruct Cb as [-> | ->]; apply Hgoal; lia.
      * rewrite (Ta Heq').
        destruct (Z.eq_dec ra rb) as [Hrr|Hrr].
        -- rewrite (Tb ltac:(lia)). rewrite Hqq. lia.
        -- rewrite (Ub' ltac:(lia)). apply Hgoal; lia.
      * rewrite (Ua' Hgt), (Ub' ltac:(lia)). apply Hgoal; lia.
    + assert (round_magnitude a <= (qa + 1) * P).
      { destruct Ca as [-> | ->]; apply Hgoal; lia. }
      assert (qb * P <= round_magnitude b).
      { destruct Cb as [-> | ->]; apply Hgoal; lia. }
      assert ((qa + 1) * P <= qb * P) by (apply Hgoal; lia).
      lia.
  - assert (2 ^ (Z.log2 a - 52 + 1) <= 2 ^ (Z.log2 b - 52))
      by (apply Z.pow_le_mono_r; lia).
    rewrite Z.pow_add_r in H by lia. change (2 ^ 1) with 2 in H.
    assert (0 < 2 ^ (Z.log2 a - 52)) by (apply Z.pow_pos_nonneg; lia).
    assert (E : 2 ^ 53 = 2 ^ 52 * 2) by reflexivity.
    rewrite E in Ua.
    set (Pa := 2 ^ (Z.log2 a - 52)) in *. set (Pb := 2 ^ (Z.log2 b - 52)) in *.
    assert (2 ^ 52 * 2 * Pa <= 2 ^ 52 * Pb) by (rewrite <- Z.mul_assoc; apply Z.mul_le_mono_nonneg_l; lia).
    lia.
Qed.

Lemma to_double_small (n : Z) : Z.abs n <= 2 ^ 53 -> to_double n = n.
Proof.
  intros H. unfold to_double. destruct (Z.ltb_spec n 0).
  - rewrite round_small; lia.
  - rewrite round_small; lia.
Qed.

Lemma to_double_nonneg (n : Z) : 0 <= n -> 0 <= to_double n.
Proof.
  intros H. unfold to_double. destruct (Z.ltb_spec n 0); [lia|]. now apply round_nonneg.
Qed.


Lemma to_double_opp (n : Z) : to_double (- n) = - to_double n.
Proof.
  unfold to_double.
  destruct (Z.ltb_spec n 0), (Z.ltb_spec (- n) 0); try lia.
  - now rewrite Z.opp_involutive.
  - assert (n = 0) as -> by lia. reflexivity.
Qed.

Lemma to_double_monotone (a b : Z) : a <= b -> to_double a <= to_double b.
Proof.
  intros H. unfold to_double.
  destruct (Z.ltb_spec a 0), (Z.ltb_spec b 0); try lia.
  - pose proof (round_monotone (- b) (- a) ltac:(lia)). lia.
  - pose proof (round_nonneg (- a) ltac:(lia)). pose proof (round_nonneg b ltac:(lia)). lia.
  - apply round_monotone; lia.
Qed.

(** *** Sums and differences in the store *)

Lemma int32_is_safe (n : Z) : is_int32 n = true -> safe_integer n.
Proof.
  unfold is_int32, safe_integer. rewrite andb_true_iff, Z.leb_le, Z.ltb_lt.
  intros [L U].
  assert (2 ^ 31 <= 2 ^ 53) by (apply Z.pow_le_mono_r; lia). lia.
Qed.

Lemma to_double_safe (n : Z) : safe_integer n -> to_double n = n.
Proof. apply to_double_small. Qed.

Lemma safe_is_double (n : Z) : safe_integer n -> is_double n.
Proof.
  intros H. split; [|now apply to_double_safe].
  unfold safe_integer in H.
  assert (2 ^ 53 < 2 ^ 1024) by (apply Z.pow_lt_mono_r; lia). lia.
Qed.

Lemma sql_add_exact (stored param : Z) :
  exact_sum stored param -> sql_add stored param = stored + param.
Proof.
  unfold sql_add. intros [(Hs & Hp & Hr) | (Hs & Hp & Hr)].
  - destruct (_ && _); [reflexivity|].
    now rewrite (to_double_safe stored), (to_double_safe param), to_double_safe.
  - unfold stored_integer in Hs. rewrite Hp, Hr. unfold is_int64.
    destruct (Z.leb_spec (- 2 ^ 63) stored), (Z.ltb_spec stored (2 ^ 63));
      try lia; reflexivity.
Qed.

Lemma sql_subtract_exact (stored param : Z) :
  exact_difference stored param -> sql_subtract stored param = stored - param.
Proof.
  unfold sql_subtract. intros [(Hs & Hp & Hr) | (Hs & Hp & Hr)].
  - destruct (_ && _); [reflexivity|].
    now rewrite (to_double_safe stored), (to_double_safe param), to_double_safe.
  - unfold stored_integer in Hs. rewrite Hp, Hr. unfold is_int64.
    destruct (Z.leb_spec (- 2 ^ 63) stored), (Z.ltb_spec stored (2 ^ 63));
      try lia; reflexivity.
Qed.


Lemma sql_add_nonneg (stored param : Z) :
  0 <= stored -> 0 <= param -> 0 <= sql_add stored param.
Proof.
  intros Hs Hp. unfold sql_add. destruct (_ && _); [lia|].
  apply to_double_nonneg.
  pose proof (to_double_nonneg stored Hs). pose proof (to_double_nonneg param Hp). lia.
Qed.

(** The comparison of the handlers, [row.total_tokens < amount], read
    on the integers. *)
Lemma covered (stored amount : Z) :
  amount <= stored -> to_double amount <= to_double stored.
Proof. apply to_double_monotone. Qed.

Lemma safe_compare (stored amount : Z) :
  safe_integer stored -> safe_integer amount ->
  (to_double stored <? to_double amount) = (stored <? amount).
Proof. intros Hs Ha. now rewrite !to_double_safe. Qed.

Lemma sql_subtract_nonneg (stored amount : Z) :
  0 <= stored -> to_double amount <= to_double stored ->
  0 <= sql_subtract stored amount.
Proof.
  intros Hs Hc. unfold sql_subtract.
  destruct (is_int32 amount) eqn:Hi; simpl.
  - destruct (_ && _).
    + rewrite (to_double_safe amount) in Hc by now apply int32_is_safe.
      destruct (Z.le_gt_cases stored (2 ^ 53)).
      * rewrite to_double_safe in Hc by (unfold safe_integer; lia). lia.
      * apply int32_is_safe in Hi. unfold safe_integer in Hi. lia.
    + apply to_double_nonneg. lia.
  - apply to_double_nonneg. lia.
Qed.

(** ** Dates and their ISO-8601 text *)

Example iso_string_epoch : iso_string 0 = "1970-01-01T00:00:00.000Z"%string.
Proof. reflexivity. Qed.

Example iso_string_leap_day :
  iso_string 951868799999 = "2000-02-29T23:59:59.999Z"%string
  /\ iso_string 4107542400000 = "2100-03-01T00:00:00.000Z"%string.
Proof. split; reflexivity. Qed.

Example iso_string_year_limits :
  iso_string 253402300799999 = "9999-12-31T23:59:59.999Z"%string
  /\ iso_string 253402300800000 = "+010000-01-01T00:00:00.000Z"%string
  /\ iso_string (-62167219200000) = "0000-01-01T00:00:00.000Z"%string
  /\ iso_string (-62167219200001) = "-000001-12-31T23:59:59.999Z"%string.
Proof. repeat split; reflexivity. Qed.

Example iso_string_range_limits :
  toISOString (new_Date max_time) = Normal "+275760-09-13T00:00:00.000Z"%string
  /\ toISOString (new_Date (- max_time)) = Normal "-271821-04-20T00:00:00.000Z"%string
  /\ toISOString (new_Date (max_time + 1)) = Throw (RangeError "Invalid time value").
Proof. repeat split; reflexivity. Qed.

Lemma DayFromYear_step (y : Z) : DayFromYear (y + 1) = DayFromYear y + DaysInYear y.
Proof.
  unfold DayFromYear, DaysInYear.
  destruct (Z.eqb_spec (y mod 4) 0), (Z.eqb_spec (y mod 100) 0),
    (Z.eqb_spec (y mod 400) 0); simpl; Z.div_mod_to_equations; lia.
Qed.

Lemma DaysInYear_bounds (y : Z) : 365 <= DaysInYear y <= 366.
Proof.
  unfold DaysInYear.
  destruct (negb _); [lia|]. destruct (negb _); [lia|]. destruct (negb _); lia.
Qed.

Lemma DayFromYear_lt (y1 y2 : Z) : y1 < y2 -> DayFromYear y1 < DayFromYear y2.
Proof.
  unfold DayFromYear. intros. Z.div_mod_to_equations. lia.
Qed.

Lemma YearFromDay_spec (d : Z) :
  DayFromYear (YearFromDay d) <= d < DayFromYear (YearFromDay d + 1).
Proof.
  unfold YearFromDay.
  set (y0 := 1970 + 400 * d / 146097).
  destruct (Z.leb_spec (DayFromYear (y0 + 1)) d) as [H1|H1].
  - split; [exact H1|]. 
    unfold DayFromYear in *. subst y0. Z.div_mod_to_equations. lia.
  - destruct (Z.leb_spec (DayFromYear y0) d) as [H0|H0].
    + split; [exact H0|exact H1].
    + replace (y0 - 1 + 1) with y0 by lia. split; [|exact H0].
      unfold DayFromYear in *. subst y0. clear H1 H0. Z.div_mod_to_equations. lia.
Qed.

Lemma DayFromYear_le (y1 y2 : Z) : y1 <= y2 -> DayFromYear y1 <= DayFromYear y2.
Proof.
  intros H. destruct (Z.eq_dec y1 y2) as [->|]; [lia|].
  apply Z.lt_le_incl, DayFromYear_lt. lia.
Qed.

Lemma YearFromDay_le (d1 d2 : Z) : d1 <= d2 -> YearFromDay d1 <= YearFromDay d2.
Proof.
  intros H.
  destruct (YearFromDay_spec d1) as [L1 U1], (YearFromDay_spec d2) as [L2 U2].
  destruct (Z_le_gt_dec (YearFromDay d1) (YearFromDay d2)) as [|Hgt]; [assumption|].
  assert (DayFromYear (YearFromDay d2 + 1) <= DayFromYear (YearFromDay d1))
    by (apply DayFromYear_le; lia).
  lia.
Qed.

Lemma DayWithinYear_bounds (t : Z) :
  0 <= DayWithinYear t < 365 + InLeapYear t.
Proof.
  unfold DayWithinYear, InLeapYear, YearFromTime.
  destruct (YearFromDay_spec (Day t)) as [L U].
  rewrite DayFromYear_step in U.
  pose proof (DaysInYear_bounds (YearFromDay (Day t))).
  destruct (Z.eqb_spec (DaysInYear (YearFromDay (Day t))) 366); lia.
Qed.

Lemma InLeapYear_bounds (t : Z) : 0 <= InLeapYear t <= 1.
Proof. unfold InLeapYear. destruct (_ =? _); lia. Qed.

Lemma month_of_day_bounds (leap dwy : Z) : 0 <= month_of_day leap dwy <= 11.
Proof.
  unfold month_of_day.
  repeat match goal with |- context [?a <? ?b] => destruct (a <? b) end; lia.
Qed.

Lemma date_bounds (leap dwy : Z) :
  0 <= leap <= 1 -> 0 <= dwy < 365 + leap ->
  1 <= dwy - month_start leap (month_of_day leap dwy) + 1 <= 31.
Proof.
  intros Hl Hd. unfold month_of_day.
  repeat match goal with
         | |- context [?a <? ?b] => destruct (Z.ltb_spec a b)
         end; simpl month_start; lia.
Qed.

Lemma month_date_lt (leap x y : Z) :
  0 <= leap <= 1 -> 0 <= x -> x < y -> y < 365 + leap ->
  month_of_day leap x < month_of_day leap y
  \/ (month_of_day leap x = month_of_day leap y
      /\ x - month_start leap (month_of_day leap x)
         < y - month_start leap (month_of_day leap y)).
Proof.
  intros Hl Hx Hxy Hy. unfold month_of_day.
  repeat match goal with
         | |- context [?a <? ?b] => destruct (Z.ltb_spec a b)
         end; simpl month_start; lia.
Qed.

Lemma time_fields (t : Z) :
  t = msPerDay * Day t + msPerHour * HourFromTime t + msPerMinute * MinFromTime t
      + msPerSecond * SecFromTime t + msFromTime t
  /\ 0 <= HourFromTime t < 24 /\ 0 <= MinFromTime t < 60
  /\ 0 <= SecFromTime t < 60 /\ 0 <= msFromTime t < 1000.
Proof.
  unfold Day, HourFromTime, MinFromTime, SecFromTime, msFromTime,
    msPerDay, msPerHour, msPerMinute, msPerSecond.
  Z.div_mod_to_equations. lia.
Qed.

(** *** The byte order of text *)

Lemma ascii_compare_refl (c : ascii) : Ascii.compare c c = Eq.
Proof. unfold Ascii.compare. apply N.compare_refl. Qed.

Lemma string_compare_refl (s : string) : String.compare s s = Eq.
Proof. induction s as [|c s IH]; simpl; [reflexivity|]. now rewrite ascii_compare_refl. Qed.

Lemma string_compare_cons (c : ascii) (s1 s2 : string) :
  String.compare (String c s1) (String c s2) = String.compare s1 s2.
Proof. simpl. now rewrite ascii_compare_refl. Qed.

Lemma string_compare_lt_trans (a b c : string) :
  String.compare a b = Lt -> String.compare b c = Lt -> String.compare a c = Lt.
Proof.
  revert b c. induction a as [|x a IH]; intros [|y b] [|z c]; simpl; try congruence.
  unfold Ascii.compare.
  destruct (N.compare_spec (N_of_ascii x) (N_of_ascii y)) as [Exy|Lxy|Gxy];
    destruct (N.compare_spec (N_of_ascii y) (N_of_ascii z)) as [Eyz|Lyz|Gyz];
    try congruence; intros H1 H2.
  - rewrite Exy, Eyz, N.compare_refl. eauto.
  - rewrite Exy. now apply N.compare_lt_iff in Lyz as ->.
  - rewrite <- Eyz. now apply N.compare_lt_iff in Lxy as ->.
  - assert (N_of_ascii x < N_of_ascii z)%N as Hlt by lia.
    now apply N.compare_lt_iff in Hlt as ->.
Qed.

Lemma string_ltb_lt (a b : string) : String.ltb a b = true <-> String.compare a b = Lt.
Proof. unfold String.ltb. destruct (String.compare a b); split; congruence. Qed.

Lemma string_ltb_trans (a b c : string) :
  String.ltb a b = true -> String.ltb b c = true -> String.ltb a c = true.
Proof. rewrite !string_ltb_lt. apply string_compare_lt_trans. Qed.

Lemma string_ltb_irrefl (a : string) : String.ltb a a = false.
Proof. unfold String.ltb. now rewrite string_compare_refl. Qed.

Lemma string_ltb_asym (a b : string) : String.ltb a b = true -> String.ltb b a = false.
Proof.
  unfold String.ltb. rewrite (String.compare_antisym a b).
  destruct (String.compare b a); simpl; congruence.
Qed.

Lemma digit_compare (a b : Z) :
  Ascii.compare (digit a) (digit b) = (a mod 10 ?= b mod 10).
Proof.
  unfold Ascii.compare, digit.
  pose proof (Z.mod_pos_bound a 10 ltac:(lia)).
  pose proof (Z.mod_pos_bound b 10 ltac:(lia)).
  rewrite !N_ascii_embedding by lia.
  rewrite <- N2Z.inj_compare, !N2Z.inj_add, !Z2N.id by lia.
  apply Z.add_compare_mono_l.
Qed.

Lemma digits_compare (w : nat) : forall (a b : Z) (ra rb : string),
  0 <= a < 10 ^ Z.of_nat w -> 0 <= b < 10 ^ Z.of_nat w ->
  String.compare (digits w a ra) (digits w b rb)
  = then_compare (a ?= b) (String.compare ra rb).
Proof.
  induction w as [|w IH]; intros a b ra rb Ha Hb.
  - simpl in *. assert (a = 0) as -> by lia. assert (b = 0) as -> by lia. reflexivity.
  - rewrite Nat2Z.inj_succ, Z.pow_succ_r in Ha, Hb by lia.
    simpl digits. rewrite IH by (Z.div_mod_to_equations; lia).
    simpl String.compare. rewrite digit_compare.
    unfold then_compare.
    destruct (Z.compare_spec (a / 10) (b / 10)), (Z.compare_spec (a mod 10) (b mod 10)),
      (Z.compare_spec a b); try reflexivity; exfalso; Z.div_mod_to_equations; lia.
Qed.

Lemma then_compare_lt (x y : Z) (rest : comparison) :
  x < y \/ (x = y /\ rest = Lt) -> then_compare (x ?= y) rest = Lt.
Proof.
  intros [H|[-> H]]; unfold then_compare.
  - now apply Z.compare_lt_iff in H as ->.
  - now rewrite Z.compare_refl.
Qed.

Lemma MonthFromTime_bounds (t : Z) : 0 <= MonthFromTime t <= 11.
Proof. apply month_of_day_bounds. Qed.

Lemma DateFromTime_bounds (t : Z) : 1 <= DateFromTime t <= 31.
Proof.
  unfold DateFromTime, MonthFromTime.
  apply date_bounds; [apply InLeapYear_bounds|apply DayWithinYear_bounds].
Qed.

Lemma year_string_four_digits (y : Z) (rest : string) :
  0 <= y <= 9999 -> year_string y rest = digits 4 y rest.
Proof.
  intros [H0 H1]. unfold year_string.
  apply Z.leb_le in H0, H1. now rewrite H0, H1.
Qed.

Lemma iso_string_compare (a b : Z) :
  four_digit_year a -> four_digit_year b ->
  String.compare (iso_string a) (iso_string b)
  = then_compare (YearFromTime a ?= YearFromTime b)
     (then_compare (MonthFromTime a + 1 ?= MonthFromTime b + 1)
     (then_compare (DateFromTime a ?= DateFromTime b)
     (then_compare (HourFromTime a ?= HourFromTime b)
     (then_compare (MinFromTime a ?= MinFromTime b)
     (then_compare (SecFromTime a ?= SecFromTime b)
     (then_compare (msFromTime a ?= msFromTime b) Eq)))))).
Proof.
  intros Ha Hb. unfold iso_string.
  rewrite !year_string_four_digits by assumption.
  pose proof (MonthFromTime_bounds a). pose proof (MonthFromTime_bounds b).
  pose proof (DateFromTime_bounds a). pose proof (DateFromTime_bounds b).
  destruct (time_fields a) as (_ & ? & ? & ? & ?).
  destruct (time_fields b) as (_ & ? & ? & ? & ?).
  unfold four_digit_year in Ha, Hb.
  repeat (rewrite digits_compare by (simpl; lia); rewrite ?string_compare_cons).
  reflexivity.
Qed.

Lemma same_day_same_date (a b : Z) :
  Day a = Day b ->
  YearFromTime a = YearFromTime b /\ MonthFromTime a = MonthFromTime b
  /\ DateFromTime a = DateFromTime b.
Proof.
  intros H.
  unfold DateFromTime, MonthFromTime, InLeapYear, DayWithinYear, YearFromTime.
  now rewrite H.
Qed.

Lemma earlier_day_earlier_date (a b : Z) :
  Day a < Day b ->
  YearFromTime a < YearFromTime b
  \/ (YearFromTime a = YearFromTime b
      /\ (MonthFromTime a < MonthFromTime b
          \/ (MonthFromTime a = MonthFromTime b /\ DateFromTime a < DateFromTime b))).
Proof.
  intros H.
  assert (YearFromTime a <= YearFromTime b) as Hy
    by (apply YearFromDay_le; lia).
  destruct (Z.eq_dec (YearFromTime a) (YearFromTime b)) as [E|]; [right|left; lia].
  split; [exact E|].
  assert (InLeapYear a = InLeapYear b) as El by (unfold InLeapYear; now rewrite E).
  unfold DateFromTime, MonthFromTime. rewrite El.
  pose proof (DayWithinYear_bounds a). pose proof (DayWithinYear_bounds b).
  assert (DayWithinYear a < DayWithinYear b) as Hlt
    by (unfold DayWithinYear; rewrite E; lia).
  destruct (month_date_lt (InLeapYear b) (DayWithinYear a) (DayWithinYear b)
              (InLeapYear_bounds b) ltac:(lia) Hlt ltac:(lia))
    as [Hm|[Hm Hd]]; [now left|right].
  split; [exact Hm|]. lia.
Qed.

Lemma iso_string_lt (a b : Z) :
  four_digit_year a -> four_digit_year b -> a < b ->
  String.compare (iso_string a) (iso_string b) = Lt.
Proof.
  intros Ha Hb Hab. rewrite iso_string_compare by assumption.
  destruct (time_fields a) as (Ea & ? & ? & ? & ?).
  destruct (time_fields b) as (Eb & ? & ? & ? & ?).
  unfold msPerDay, msPerHour, msPerMinute, msPerSecond in Ea, Eb.
  destruct (Z_lt_ge_dec (Day a) (Day b)) as [Hd|Hd].
  - destruct (earlier_day_earlier_date a b Hd) as [Hy|[Ey [Hm|[Em Hdt]]]].
    + apply then_compare_lt. now left.
    + apply then_compare_lt. right. split; [exact Ey|].
      apply then_compare_lt. left. lia.
    + apply then_compare_lt. right. split; [exact Ey|].
      apply then_compare_lt. right. split; [lia|].
      apply then_compare_lt. now left.
  - assert (Day a = Day b) as Ed by lia.
    destruct (same_day_same_date a b Ed) as (Ey & Em & Edt).
    apply then_compare_lt. right. split; [exact Ey|].
    apply then_compare_lt. right. split; [lia|].
    apply then_compare_lt. right. split; [exact Edt|].
    destruct (Z_lt_ge_dec (HourFromTime a) (HourFromTime b));
      [apply then_compare_lt; now left|].
    apply then_compare_lt. right. split; [lia|].
    destruct (Z_lt_ge_dec (MinFromTime a) (MinFromTime b));
      [apply then_compare_lt; now left|].
    apply then_compare_lt. right. split; [lia|].
    destruct (Z_lt_ge_dec (SecFromTime a) (SecFromTime b));
      [apply then_compare_lt; now left|].
    apply then_compare_lt. right. split; [lia|].
    apply then_compare_lt. left. lia.
Qed.

(** Within years 0000 to 9999 the text order of ISO strings is the order
    of the instants. *)
Lemma iso_string_ltb (a b : Z) :
  four_digit_year a -> four_digit_year b ->
  String.ltb (iso_string a) (iso_string b) = (a <? b).
Proof.
  intros Ha Hb. destruct (Z.ltb_spec a b) as [Hlt|Hge].
  - apply string_ltb_lt, iso_string_lt; assumption.
  - destruct (Z.eq_dec a b) as [->|Hne]; [apply string_ltb_irrefl|].
    apply string_ltb_asym, string_ltb_lt, iso_string_lt; auto. lia.
Qed.

(** Such instants are valid time values. *)
Lemma four_digit_year_in_range (e : Z) : four_digit_year e -> Z.abs e <= max_time.
Proof.
  unfold four_digit_year, YearFromTime. intros [H0 H1].
  destruct (YearFromDay_spec (Day e)) as [L U].
  pose proof (DayFromYear_le 0 _ H0) as L0.
  assert (DayFromYear (YearFromDay (Day e) + 1) <= DayFromYear 10000) as U0
    by (apply DayFromYear_le; lia).
  change (DayFromYear 0) with (-719528) in L0.
  change (DayFromYear 10000) with 2932897 in U0.
  unfold Day, msPerDay, max_time in *. Z.div_mod_to_equations. lia.
Qed.

(** A year before 0000 is written with a minus sign, which sorts below
    every digit: such an instant is earlier than every instant of years
    0000 to 9999, and its text is below theirs. *)
Lemma digit_above_minus (d : Z) : Ascii.compare (digit d) "-" = Gt.
Proof.
  unfold Ascii.compare, digit.
  pose proof (Z.mod_pos_bound d 10 ltac:(lia)).
  rewrite N_ascii_embedding by lia.
  apply N.compare_gt_iff. simpl. lia.
Qed.

Lemma YearFromTime_le (a b : Z) : a <= b -> YearFromTime a <= YearFromTime b.
Proof.
  intros H. apply YearFromDay_le. unfold Day, msPerDay.
  apply Z.div_le_mono; lia.
Qed.

Lemma iso_string_before_year_0 (now e : Z) :
  four_digit_year now -> YearFromTime e < 0 ->
  String.ltb (iso_string now) (iso_string e) = false /\ e < now.
Proof.
  intros [Hnow0 Hnow1] He. split.
  - unfold String.ltb, iso_string.
    rewrite (year_string_four_digits (YearFromTime now)) by lia.
    unfold year_string at 1.
    destruct (Z.leb_spec 0 (YearFromTime e)); [lia|].
    destruct (Z.ltb_spec (YearFromTime e) 0); [|lia].
    simpl. now rewrite digit_above_minus.
  - destruct (Z.lt_ge_cases e now) as [|Hge]; [assumption|].
    pose proof (YearFromTime_le now e Hge). lia.
Qed.

(** Against a current time in years 0000 to 9999, the text of an expiry
    up to year 9999 is above the text of the current time exactly when
    the expiry is later. *)
Lemma iso_string_after (now e : Z) :
  four_digit_year now -> YearFromTime e <= 9999 ->
  String.ltb (iso_string now) (iso_string e) = (now <? e).
Proof.
  intros Hnow He. destruct (Z.lt_ge_cases (YearFromTime e) 0) as [Hneg|Hpos].
  - destruct (iso_string_before_year_0 now e Hnow Hneg) as [-> Hlt].
    symmetry. apply Z.ltb_ge. lia.
  - apply iso_string_ltb; [assumption|split; lia].
Qed.

Lemma later_than_four_digit_year (now e : Z) :
  four_digit_year now -> YearFromTime e <= 9999 -> now <= e -> four_digit_year e.
Proof.
  intros [H0 _] He Hle. split; [|assumption].
  pose proof (YearFromTime_le now e Hle). lia.
Qed.

(** ** The statements, one at a time *)

Section Statements.
Variable t : tables.
Variable uid : string.

Lemma upsert_existing name r :
  users t !! uid = Some r ->
  users (exec (UpsertUser uid name) t) = <[uid := set_username name r]> (users t).
Proof. intros H. simpl. unfold upsert_user. now rewrite H. Qed.

Lemma upsert_fresh name :
  users t !! uid = None ->
  users (exec (UpsertUser uid name) t) = <[uid := Users.inserted name]> (users t).
Proof. intros H. simpl. unfold upsert_user. now rewrite H. Qed.

Lemma upsert_lookup name :
  users (exec (UpsertUser uid name) t) !! uid
  = Some (from_option (set_username name) (Users.inserted name) (users t !! uid)).
Proof.
  simpl. unfold upsert_user.
  destruct (users t !! uid); simpl; apply lookup_insert_eq.
Qed.

Lemma upsert_other name other :
  other <> uid ->
  users (exec (UpsertUser uid name) t) !! other = users t !! other.
Proof.
  intros H. simpl. unfold upsert_user.
  destruct (users t !! uid); now rewrite lookup_insert_ne.
Qed.

Lemma upsert_dom_existing name :
  is_Some (users t !! uid) ->
  dom (users (exec (UpsertUser uid name) t)) = dom (users t).
Proof.
  intros [r H]. rewrite (upsert_existing _ _ H).
  apply dom_insert_lookup_L. eauto.
Qed.

Lemma update_absent (f : Users.row -> Users.row) :
  users t !! uid = None -> alter f uid (users t) = users t.
Proof.
  intros H. apply map_eq. intros k. rewrite lookup_alter.
  case_decide; subst; [now rewrite H|reflexivity].
Qed.

Lemma exec_preserves_logs s : logs (exec s t) = logs t.
Proof. now destruct s. Qed.

End Statements.

Lemma tables_eq (a b : tables) :
  users a = users b -> boosts a = boosts b -> logs a = logs b -> a = b.
Proof. destruct a, b; simpl; congruence. Qed.


Lemma subtract_absent t uid amount :
  users t !! uid = None -> exec (SubtractTokens amount uid) t = t.
Proof. intros H. apply tables_eq; simpl; auto using update_absent. Qed.

(** ** Each handler, step by step *)

(** Without the tables the first statement fails and the handler answers
    500. *)
Lemma statements_fail_without_tables (b : body) (uid : string) (reward : Z) :
  userId b = Some uid -> clickReward b = Some reward ->
  truthy uid = true -> truthy reward = true ->
  serve (apiRouter.register b) NoTables
  = (Responded 500 (Text "Error registering user."),
     {| db := NoTables; issued := [UpsertUser uid (or_null (username b))] |})
  /\ serve (apiRouter.click b) NoTables
     = (Responded 500 (Text "Database error."),
        {| db := NoTables; issued := [AddClick reward uid] |})
  /\ serve (apiRouter.user uid) NoTables
     = (Responded 500 (Text "Database error."),
        {| db := NoTables; issued := [SelectUser uid] |}).
Proof.
  intros Hid Hreward Huid Hr. repeat split; run_handler;
    rewrite ?Hid, ?Hreward, ?Huid, ?Hr; reflexivity.
Qed.

Section Register.
Variables (b : body) (uid : string).
Hypothesis Hid : userId b = Some uid.
Hypothesis Huid : truthy uid = true.

Lemma register_ready t :
  serve (apiRouter.register b) (Ready t)
  = (Responded 200
       (Json [("message", JString ("User " +:+ uid +:+ " registered successfully."))]),
     {| db := Ready (exec (UpsertUser uid (or_null (username b))) t);
        issued := [UpsertUser uid (or_null (username b))] |}).
Proof. run_handler. rewrite Hid, Huid. reflexivity. Qed.
End Register.

Section Click.
Variables (b : body) (uid : string) (reward : Z).
Hypothesis Hid : userId b = Some uid.
Hypothesis Hreward : clickReward b = Some reward.
Hypothesis Huid : truthy uid = true.
Hypothesis Hr : truthy reward = true.

Lemma click_ready t :
  serve (apiRouter.click b) (Ready t)
  = (Responded 200
       (Json [("message",
               JString ("Added " +:+ number_to_string reward
                        +:+ " tokens for user " +:+ uid +:+ "."))]),
     {| db := Ready (exec (AddClick reward uid) t);
        issued := [AddClick reward uid] |}).
Proof. run_handler. rewrite Hid, Hreward, Huid, Hr. reflexivity. Qed.
End Click.

Section ClaimTokens.
Variables (b : body) (uid : string) (amount : Z).
Hypothesis Hid : userId b = Some uid.
Hypothesis Hamount : tokens b = Some amount.
Hypothesis Huid : truthy uid = true.
Hypothesis Ha : truthy amount = true.



Lemma claim_sufficient t r :
  users t !! uid = Some r ->
  to_double amount <= to_double (Users.total_tokens r) ->
  serve (apiRouter.claim_tokens b) (Ready t)
  = (Responded 200
       (Json [("message",
               JString ("User " +:+ uid +:+ " claimed "
                        +:+ number_to_string amount +:+ " tokens."))]),
     {| db := Ready (exec (SubtractTokens amount uid) t);
        issued := [SelectTokens uid; SubtractTokens amount uid] |}).
Proof.
  intros H Hle. run_handler. rewrite Hid, Hamount, Huid, Ha. simpl.
  rewrite H. simpl. apply Z.ltb_ge in Hle. rewrite Hle. reflexivity.
Qed.
End ClaimTokens.

Section User.
Variables (t : tables) (uid : string).

Lemma user_ready :
  serve (apiRouter.user uid) (Ready t)
  = (match users t !! uid with
     | Some r => Responded 200 (Json (user_row uid r))
     | None => Responded 404 (Text "User not found.")
     end,
     {| db := Ready t; issued := [SelectUser uid] |}).
Proof. run_handler. now destruct (users t !! uid). Qed.
End User.

(** ** Register *)

(** C1: registering an existing user again, with a username, rewrites
    the username of that row and nothing else: both counters, every
    other row, the set of ids and the other tables stay as they were. *)
Theorem register_again_updates_only_username
    (t : tables) (b : body) (uid name : string) (r : Users.row) :
  userId b = Some uid -> username b = Some name ->
  truthy uid = true -> truthy name = true ->
  users t !! uid = Some r ->
  let t' := exec (UpsertUser uid (Some name)) t in
  serve (apiRouter.register b) (Ready t)
  = (Responded 200
       (Json [("message", JString ("User " +:+ uid +:+ " registered successfully."))]),
     {| db := Ready t'; issued := [UpsertUser uid (Some name)] |})
  /\ users t' !! uid
     = Some {| Users.username := Some name;
               Users.total_clicks := Users.total_clicks r;
               Users.total_tokens := Users.total_tokens r |}
  /\ (forall other, other <> uid -> users t' !! other = users t !! other)
  /\ dom (users t') = dom (users t)
  /\ size (users t') = size (users t)
  /\ boosts t' = boosts t /\ logs t' = logs t.
Proof.
  intros Hid Hname Huid Hn Hrow t'.
  assert (Hdom : dom (users t') = dom (users t))
    by (apply upsert_dom_existing; eauto).
  repeat split; auto.
  - rewrite (register_ready b uid Hid Huid), Hname, (or_null_truthy _ Hn).
    reflexivity.
  - unfold t'. rewrite upsert_lookup, Hrow. reflexivity.
  - intros other Hne. now apply upsert_other.
  - rewrite <- !size_dom, Hdom. reflexivity.
Qed.

Lemma register_again_updates_only_username_witness :
  users one_user !! "u1"%string = Some ann
  /\ users (exec (UpsertUser "u1" (Some "bea"%string)) one_user) !! "u1"%string
     = Some {| Users.username := Some "bea"%string;
               Users.total_clicks := 3; Users.total_tokens := 15 |}.
Proof.
  split; [reflexivity|].
  exact (proj1 (proj2 (register_again_updates_only_username
    one_user (register_request "u1" (Some "bea"%string)) "u1" "bea" ann
    eq_refl eq_refl eq_refl eq_refl eq_refl))).
Defined.

(** C9: registering an existing user again without a username, or with
    a falsy one, stores null over the previous username. *)
Theorem register_again_without_username_stores_null
    (t : tables) (b : body) (uid old : string) (r : Users.row) :
  userId b = Some uid -> truthy uid = true ->
  truthy (username b) = false ->
  users t !! uid = Some r -> Users.username r = Some old ->
  let t' := exec (UpsertUser uid None) t in
  serve (apiRouter.register b) (Ready t)
  = (Responded 200
       (Json [("message", JString ("User " +:+ uid +:+ " registered successfully."))]),
     {| db := Ready t'; issued := [UpsertUser uid None] |})
  /\ users t' !! uid
     = Some {| Users.username := None;
               Users.total_clicks := Users.total_clicks r;
               Users.total_tokens := Users.total_tokens r |}
  /\ (Users.username <$> users t' !! uid) <> (Users.username <$> users t !! uid).
Proof.
  intros Hid Huid Hn Hrow Hold t'.
  assert (Hnew : users t' !! uid = Some (set_username None r))
    by (unfold t'; now rewrite upsert_lookup, Hrow).
  repeat split.
  - rewrite (register_ready b uid Hid Huid), (or_null_falsy _ Hn). reflexivity.
  - exact Hnew.
  - rewrite Hnew, Hrow. simpl. rewrite Hold. discriminate.
Qed.

Lemma register_again_without_username_stores_null_witness :
  truthy (username (register_request "u1" (Some ""%string))) = false
  /\ users (exec (UpsertUser "u1" None) one_user) !! "u1"%string
     = Some {| Users.username := None;
               Users.total_clicks := 3; Users.total_tokens := 15 |}.
Proof.
  split; [reflexivity|].
  exact (proj1 (proj2 (register_again_without_username_stores_null
    one_user (register_request "u1" (Some ""%string)) "u1" "ann" ann
    eq_refl eq_refl eq_refl eq_refl eq_refl))).
Defined.

(** ** Click *)




(** ** Claim tokens *)







(** ** Validation *)

(** C6: when a required field of click, claim-tokens or buy-boost is
    absent, null, 0 or the empty string, the handler answers 400 before
    any statement reaches the store: the database is the one it started
    with and the statement log is empty. *)
Theorem falsy_field_is_rejected_before_the_store (d : database) (now : Z) (b : body) :
  (truthy (userId b) = false \/ truthy (clickReward b) = false ->
   serve (apiRouter.click b) d
   = (Responded 400 (Text "Missing userId or clickReward"),
      {| db := d; issued := [] |}))
  /\ (truthy (userId b) = false \/ truthy (tokens b) = false ->
      serve (apiRouter.claim_tokens b) d
      = (Responded 400 (Text "Missing userId or tokens"),
         {| db := d; issued := [] |}))
  /\ (truthy (userId b) = false \/ truthy (boostType b) = false
      \/ truthy (price b) = false \/ truthy (duration b) = false ->
      serve (apiRouter.buy_boost now b) d
      = (Responded 400 (Text "Missing required fields"),
         {| db := d; issued := [] |})).
Proof.
  unfold truthy, truthy_field.
  repeat split.
  - intros H. run_handler.
    destruct (userId b) as [u|], (clickReward b) as [n|]; try reflexivity.
    destruct H as [->| ->]; rewrite ?orb_true_r; reflexivity.
  - intros H. run_handler.
    destruct (userId b) as [u|], (tokens b) as [n|]; try reflexivity.
    destruct H as [->| ->]; rewrite ?orb_true_r; reflexivity.
  - intros H. run_handler.
    destruct (userId b) as [u|], (boostType b) as [k|],
      (price b) as [p|], (duration b) as [h|]; try reflexivity.
    destruct H as [->|[->|[->| ->]]]; rewrite ?orb_true_r; reflexivity.
Qed.

Lemma falsy_field_is_rejected_before_the_store_witness :
  truthy (clickReward (click_request "u1" 0)) = false
  /\ serve (apiRouter.click (click_request "u1" 0)) (Ready one_user)
     = (Responded 400 (Text "Missing userId or clickReward"),
        {| db := Ready one_user; issued := [] |}).
Proof.
  split; [reflexivity|].
  exact (proj1 (falsy_field_is_rejected_before_the_store
    (Ready one_user) 0 (click_request "u1" 0)) (or_intror eq_refl)).
Defined.

(** ** User statistics *)

(** C8: an id with no row gets 404; once that id is registered, and
    nothing else has run, the answer is 200 with the id, the stored
    username and both counters at 0.  The stored username is the one of
    the registration when that is a non-empty string, and null when it
    is absent or empty. *)
Theorem user_stats_before_and_after_register (t : tables) (b : body) (uid : string) :
  userId b = Some uid -> truthy uid = true ->
  users t !! uid = None ->
  serve (apiRouter.user uid) (Ready t)
  = (Responded 404 (Text "User not found."),
     {| db := Ready t; issued := [SelectUser uid] |})
  /\ exists t' stored,
       serve (apiRouter.register b) (Ready t)
       = (Responded 200
            (Json [("message", JString ("User " +:+ uid +:+ " registered successfully."))]),
          {| db := Ready t'; issued := [UpsertUser uid stored] |})
       /\ users t' !! uid
          = Some {| Users.username := stored;
                    Users.total_clicks := 0; Users.total_tokens := 0 |}
       /\ serve (apiRouter.user uid) (Ready t')
          = (Responded 200
               (Json [("id", JString uid);
                      ("username",
                       match stored with Some name => JString name | None => JNull end);
                      ("total_clicks", JNumber 0);
                      ("total_tokens", JNumber 0)]),
             {| db := Ready t'; issued := [SelectUser uid] |})
       /\ (forall name, username b = Some name -> truthy name = true ->
           stored = Some name)
       /\ (truthy (username b) = false -> stored = None).
Proof.
  intros Hid Huid Hnone. split.
  - rewrite user_ready, Hnone. reflexivity.
  - exists (exec (UpsertUser uid (or_null (username b))) t), (or_null (username b)).
    assert (Hnew : users (exec (UpsertUser uid (or_null (username b))) t) !! uid
                   = Some (Users.inserted (or_null (username b))))
      by (now rewrite upsert_lookup, Hnone).
    split; [|split; [|split; [|split]]].
    + now apply register_ready.
    + exact Hnew.
    + rewrite user_ready, Hnew. reflexivity.
    + intros name Hname Htruthy. rewrite Hname. now apply or_null_truthy.
    + apply or_null_falsy.
Qed.

Lemma user_stats_before_and_after_register_witness :
  users one_user !! "u2"%string = None
  /\ serve (apiRouter.user "u2") (Ready one_user)
     = (Responded 404 (Text "User not found."),
        {| db := Ready one_user; issued := [SelectUser "u2"] |})
  /\ exists t',
       serve (apiRouter.register (register_request "u2" (Some "bob"%string)))
             (Ready one_user)
       = (Responded 200 (Json [("message", JString "User u2 registered successfully.")]),
          {| db := Ready t'; issued := [UpsertUser "u2" (Some "bob"%string)] |})
       /\ serve (apiRouter.user "u2") (Ready t')
          = (Responded 200
               (Json [("id", JString "u2");
                      ("username", JString "bob");
                      ("total_clicks", JNumber 0);
                      ("total_tokens", JNumber 0)]),
             {| db := Ready t'; issued := [SelectUser "u2"] |}).
Proof.
  split; [reflexivity|].
  destruct (user_stats_before_and_after_register
    one_user (register_request "u2" (Some "bob"%string)) "u2"
    eq_refl eq_refl eq_refl) as (Hmissing & t' & stored & Hreg & _ & Huser & Hname & _).
  split; [exact Hmissing|].
  exists t'. rewrite (Hname "bob"%string eq_refl eq_refl) in Hreg, Huser.
  split; [exact Hreg|exact Huser].
Defined.

(** ** The scenario *)

(** C4: from the empty store, register [u1] and click three times for 5:
    3 clicks and 15 tokens.  Claiming 10 answers 200 and leaves 5;
    claiming 10 again answers 400 and leaves 5. *)
Theorem scenario_register_click_claim :
  fst after_clicks
  = [Responded 200 (Json [("message", JString "User u1 registered successfully.")]);
     Responded 200 (Json [("message", JString "Added 5 tokens for user u1.")]);
     Responded 200 (Json [("message", JString "Added 5 tokens for user u1.")]);
     Responded 200 (Json [("message", JString "Added 5 tokens for user u1.")])]
  /\ counters (snd after_clicks) "u1" = Some (3, 15)
  /\ fst after_first_claim
     = [Responded 200 (Json [("message", JString "User u1 claimed 10 tokens.")])]
  /\ balance (snd after_first_claim) "u1" = Some 5
  /\ fst after_second_claim = [Responded 400 (Text "Insufficient tokens.")]
  /\ balance (snd after_second_claim) "u1" = Some 5.
Proof. repeat split; vm_compute; reflexivity. Qed.

(** ** Buy boost *)

Lemma hours_to_ms (now hours : Z) :
  now + hours * 60 * 60 * 1000 = now + hours * 3600000.
Proof. lia. Qed.

Lemma new_Date_in_range (v : Z) : Z.abs v <= max_time -> new_Date v = Some v.
Proof.
  intros H. unfold new_Date, TimeClip. apply Z.leb_le in H. now rewrite H.
Qed.

Lemma new_Date_out_of_range (v : Z) : max_time < Z.abs v -> new_Date v = None.
Proof.
  intros H. unfold new_Date, TimeClip. apply Z.leb_gt in H. now rewrite H.
Qed.

Section BuyBoost.
Variables (b : body) (uid type : string) (cost hours now : Z).
Hypothesis Hid : userId b = Some uid.
Hypothesis Htype : boostType b = Some type.
Hypothesis Hcost : price b = Some cost.
Hypothesis Hhours : duration b = Some hours.
Hypothesis Huid : truthy uid = true.
Hypothesis Hty : truthy type = true.
Hypothesis Hc : truthy cost = true.
Hypothesis Hh : truthy hours = true.

Variables (t : tables) (r : Users.row).
Hypothesis Hrow : users t !! uid = Some r.
Hypothesis Hbalance : to_double cost <= to_double (Users.total_tokens r).

Lemma buy_boost_in_range :
  Z.abs (now + hours * 3600000) <= max_time ->
  let until := iso_string (now + hours * 3600000) in
  serve (apiRouter.buy_boost now b) (Ready t)
  = (Responded 200
       (Json [("message",
               JString ("Boost " +:+ type +:+ " purchased for user " +:+ uid +:+ "."));
              ("activeUntil", JString until)]),
     {| db := Ready (exec (InsertBoost uid type until)
                       (exec (SubtractTokens cost uid) t));
        issued := [SelectTokens uid; SubtractTokens cost uid;
                   InsertBoost uid type until] |}).
Proof.
  intros Hrange until. run_handler.
  rewrite Hid, Htype, Hcost, Hhours, Huid, Hty, Hc, Hh. simpl.
  rewrite Hrow. simpl. apply Z.ltb_ge in Hbalance. rewrite Hbalance.
  rewrite hours_to_ms, (new_Date_in_range _ Hrange). reflexivity.
Qed.

Lemma buy_boost_out_of_range :
  max_time < Z.abs (now + hours * 3600000) ->
  serve (apiRouter.buy_boost now b) (Ready t)
  = (Uncaught (RangeError "Invalid time value"),
     {| db := Ready t; issued := [SelectTokens uid] |}).
Proof.
  intros Hrange. run_handler.
  rewrite Hid, Htype, Hcost, Hhours, Huid, Hty, Hc, Hh. simpl.
  rewrite Hrow. simpl. apply Z.ltb_ge in Hbalance. rewrite Hbalance.
  rewrite hours_to_ms, (new_Date_out_of_range _ Hrange). reflexivity.
Qed.
End BuyBoost.

(** C5, as stated, fails in two ways.  With a balance of 15, a price of
    10 and a duration of 10^10 hours the expiry falls outside the range
    of [Date], [toISOString] throws, and neither the balance nor the
    boosts change.  With a price of -2^53 and a duration of one hour the
    purchase goes through, and the balance becomes the double nearest to
    15 + 2^53, which is 2^53 + 16: not exactly the price was deducted. *)
Lemma buy_boost_throws_or_rounds_the_balance :
  (10 <= Users.total_tokens ann
   /\ serve (apiRouter.buy_boost 1700000000000 (boost_request "u1" "x2" 10 10000000000))
            (Ready one_user)
      = (Uncaught (RangeError "Invalid time value"),
         {| db := Ready one_user; issued := [SelectTokens "u1"] |})
   /\ balance (Ready one_user) "u1" = Some 15
   /\ boosts one_user = [])
  /\ (let purchase :=
        apiRouter.buy_boost 1700000000000 (boost_request "u1" "x2" (- 2 ^ 53) 1) in
      - 2 ^ 53 <= Users.total_tokens ann
      /\ fst (serve purchase (Ready one_user))
         = Responded 200
             (Json [("message", JString "Boost x2 purchased for user u1.");
                    ("activeUntil", JString "2023-11-14T23:13:20.000Z")])
      /\ balance (db (snd (serve purchase (Ready one_user)))) "u1" = Some (2 ^ 53 + 16)
      /\ 2 ^ 53 + 16 <> 15 - - 2 ^ 53).
Proof. repeat split; vm_compute; congruence. Qed.

(** C5, amended: a purchase that passes validation, with a balance of at
    least the price and an expiry [now + duration * 3600000] that [Date]
    can represent, subtracts the price as the store computes the
    difference, [sql_subtract] (exactly the price whenever balance,
    price and difference have magnitude at most 2^53, or the price is a
    32-bit integer and the difference fits in 64 bits), appends exactly
    one boost row whose [active_until] is the ISO-8601 text of that
    expiry, and answers 200 with that text as [activeUntil]. *)
Theorem buy_boost_deducts_price_and_inserts_one_boost
    (t : tables) (b : body) (uid type : string) (cost hours now : Z) (r : Users.row) :
  userId b = Some uid -> boostType b = Some type ->
  price b = Some cost -> duration b = Some hours ->
  truthy uid = true -> truthy type = true ->
  truthy cost = true -> truthy hours = true ->
  is_double cost ->
  users t !! uid = Some r -> cost <= Users.total_tokens r ->
  Z.abs (now + hours * 3600000) <= max_time ->
  let until := iso_string (now + hours * 3600000) in
  exists t',
    serve (apiRouter.buy_boost now b) (Ready t)
    = (Responded 200
         (Json [("message",
                 JString ("Boost " +:+ type +:+ " purchased for user " +:+ uid +:+ "."));
                ("activeUntil", JString until)]),
       {| db := Ready t';
          issued := [SelectTokens uid; SubtractTokens cost uid;
                     InsertBoost uid type until] |})
    /\ (stored_integer (Users.total_tokens r) ->
        users t' !! uid
        = Some {| Users.username := Users.username r;
                  Users.total_clicks := Users.total_clicks r;
                  Users.total_tokens := sql_subtract (Users.total_tokens r) cost |})
    /\ (exact_difference (Users.total_tokens r) cost ->
        users t' !! uid
        = Some {| Users.username := Users.username r;
                  Users.total_clicks := Users.total_clicks r;
                  Users.total_tokens := Users.total_tokens r - cost |})
    /\ (forall other, other <> uid -> users t' !! other = users t !! other)
    /\ boosts t'
       = boosts t ++ [ {| Boosts.id := next_boost_id (boosts t);
                          Boosts.user_id := uid;
                          Boosts.boost_type := type;
                          Boosts.active_until := until |} ]
    /\ logs t' = logs t.
Proof.
  intros Hid Htype Hcost Hhours Huid Hty Hc Hh _ Hrow Hbal Hrange until.
  exists (exec (InsertBoost uid type until) (exec (SubtractTokens cost uid) t)).
  assert (Hnew : users (exec (InsertBoost uid type until)
                          (exec (SubtractTokens cost uid) t)) !! uid
                 = Some (subtract_tokens cost r))
    by (simpl; now rewrite lookup_alter_eq, Hrow).
  split; [|split; [|split; [|split; [|split]]]]; auto.
  - apply (buy_boost_in_range b uid type cost hours now
             Hid Htype Hcost Hhours Huid Hty Hc Hh t r Hrow (covered _ _ Hbal) Hrange).
  - intros Hexact. rewrite Hnew. unfold subtract_tokens.
    now rewrite (sql_subtract_exact _ _ Hexact).
  - intros other Hne. simpl. now rewrite lookup_alter_ne.
Qed.

Lemma buy_boost_deducts_price_and_inserts_one_boost_witness :
  (is_double 10 /\ 10 <= Users.total_tokens ann
   /\ Z.abs (1700000000000 + 1 * 3600000) <= max_time
   /\ exact_difference (Users.total_tokens ann) 10)
  /\ exists t',
       serve (apiRouter.buy_boost 1700000000000 (boost_request "u1" "x2" 10 1))
             (Ready one_user)
       = (Responded 200
            (Json [("message", JString "Boost x2 purchased for user u1.");
                   ("activeUntil", JString "2023-11-14T23:13:20.000Z")]),
          {| db := Ready t';
             issued := [SelectTokens "u1"; SubtractTokens 10 "u1";
                        InsertBoost "u1" "x2" "2023-11-14T23:13:20.000Z"] |})
       /\ balance (Ready t') "u1" = Some 5
       /\ boosts t'
          = [ {| Boosts.id := 1; Boosts.user_id := "u1"; Boosts.boost_type := "x2";
                 Boosts.active_until := "2023-11-14T23:13:20.000Z" |} ].
Proof.
  assert (Hdouble : is_double 10) by (split; reflexivity).
  assert (Hexact : exact_difference (Users.total_tokens ann) 10)
    by (left; repeat split; discriminate).
  split; [repeat split; solve [reflexivity | discriminate | exact Hexact]|].
  destruct (buy_boost_deducts_price_and_inserts_one_boost
    one_user (boost_request "u1" "x2" 10 1) "u1" "x2" 10 1 1700000000000 ann
    eq_refl eq_refl eq_refl eq_refl eq_refl eq_refl eq_refl eq_refl Hdouble eq_refl
    ltac:(discriminate) ltac:(discriminate))
    as (t' & Hserve & _ & Hrow & _ & Hboosts & _).
  exists t'. split; [exact Hserve|]. split; [|exact Hboosts].
  unfold balance, counters. rewrite (Hrow Hexact). reflexivity.
Defined.

(** ** Active boost *)

Lemma string_ltb_false (a b : string) :
  String.ltb a b = false -> a = b \/ String.ltb b a = true.
Proof.
  unfold String.ltb. rewrite (String.compare_antisym b a).
  destruct (String.compare a b) eqn:E; simpl; try discriminate; intros _.
  - left. now apply String.compare_eq_iff.
  - now right.
Qed.

Lemma string_ltb_le_trans (a b c : string) :
  String.ltb a b = true -> String.ltb c b = false -> String.ltb a c = true.
Proof.
  intros Hab Hcb. destruct (string_ltb_false _ _ Hcb) as [->|Hbc]; [exact Hab|].
  eapply string_ltb_trans; eassumption.
Qed.

(** The fold keeps a row that no row seen so far exceeds. *)
Lemma later_boost_fold (l : list Boosts.row) : forall b0 : Boosts.row,
  exists r,
    foldl later_boost (Some b0) l = Some r
    /\ (r = b0 \/ In r l)
    /\ String.ltb (Boosts.active_until r) (Boosts.active_until b0) = false
    /\ forall x, In x l ->
         String.ltb (Boosts.active_until r) (Boosts.active_until x) = false.
Proof.
  induction l as [|x l IH]; intros b0; simpl.
  - exists b0. repeat split; auto using string_ltb_irrefl. intros x [].
  - destruct (String.ltb (Boosts.active_until b0) (Boosts.active_until x)) eqn:E.
    + destruct (IH x) as (r & Hr & Hin & Hx & Hall).
      exists r. repeat split; [exact Hr|destruct Hin as [->|]; simpl; auto| |].
      * destruct (String.ltb (Boosts.active_until r) (Boosts.active_until b0)) eqn:E'; auto.
        rewrite (string_ltb_trans _ _ _ E' E) in Hx. discriminate.
      * intros y [<-|Hy]; auto.
    + destruct (IH b0) as (r & Hr & Hin & Hb & Hall).
      exists r. repeat split; [exact Hr|simpl; tauto|exact Hb|].
      intros y [<-|Hy]; auto.
      destruct (String.ltb (Boosts.active_until r) (Boosts.active_until x)) eqn:E'; auto.
      rewrite (string_ltb_le_trans _ _ _ E' E) in Hb. discriminate.
Qed.

Section SelectActiveBoost.
Variables (uid now : string) (bs : list Boosts.row).

Lemma select_active_boost_none :
  select_active_boost uid now bs = None
  <-> forall x, In x bs -> boost_matches uid now x = false.
Proof.
  unfold select_active_boost. split.
  - intros H x Hx. destruct (boost_matches uid now x) eqn:E; [|reflexivity].
    assert (In x (List.filter (boost_matches uid now) bs)) as Hin
      by (apply filter_In; auto).
    destruct (List.filter (boost_matches uid now) bs) as [|b0 l]; [destruct Hin|].
    simpl in H. destruct (later_boost_fold l b0) as (r & Hr & _). congruence.
  - intros H.
    destruct (List.filter (boost_matches uid now) bs) as [|b0 l] eqn:E; [reflexivity|].
    assert (In b0 (List.filter (boost_matches uid now) bs)) as Hin
      by (rewrite E; now left).
    apply filter_In in Hin as [Hin Hm]. rewrite (H _ Hin) in Hm. discriminate.
Qed.

Lemma select_active_boost_some (r : Boosts.row) :
  select_active_boost uid now bs = Some r ->
  In r bs /\ boost_matches uid now r = true
  /\ forall x, In x bs -> boost_matches uid now x = true ->
       String.ltb (Boosts.active_until r) (Boosts.active_until x) = false.
Proof.
  unfold select_active_boost. intros H.
  destruct (List.filter (boost_matches uid now) bs) as [|b0 l] eqn:E;
    [discriminate|].
  simpl in H. destruct (later_boost_fold l b0) as (r' & Hr & Hin & Hb & Hall).
  assert (r' = r) as -> by congruence.
  assert (In r (List.filter (boost_matches uid now) bs)) as Hr'
    by (rewrite E; destruct Hin as [->|]; simpl; auto).
  apply filter_In in Hr' as [Hrin Hrm].
  repeat split; auto.
  intros x Hx Hm.
  assert (In x (b0 :: l)) as [<-|Hxl]
    by (rewrite <- E; apply filter_In; auto); auto.
Qed.
End SelectActiveBoost.

Lemma boost_matches_spec (uid now : string) (x : Boosts.row) :
  boost_matches uid now x = true
  <-> Boosts.user_id x = uid /\ String.ltb now (Boosts.active_until x) = true.
Proof.
  unfold boost_matches. rewrite andb_true_iff, bool_decide_eq_true. tauto.
Qed.

Lemma active_boost_ready (t : tables) (now : Z) (uid : string) :
  serve (apiRouter.active_boost now uid) (Ready t)
  = (match select_active_boost uid (iso_string now) (boosts t) with
     | Some r => Responded 200 (Json (boost_row r))
     | None => Responded 404 (Text "No active boost.")
     end,
     {| db := Ready t; issued := [SelectActiveBoost uid (iso_string now)] |}).
Proof.
  run_handler. now destruct (select_active_boost uid (iso_string now) (boosts t)).
Qed.

(** The query in the store's own terms: the answer is the user's row
    with the greatest [active_until] text among those whose text is above
    the text of the current time. *)
Lemma active_boost_greatest_text (t : tables) (now : Z) (uid : string) :
  match fst (serve (apiRouter.active_boost now uid) (Ready t)) with
  | Responded 200 (Json o) =>
      exists r, o = boost_row r /\ In r (boosts t) /\ Boosts.user_id r = uid
        /\ String.ltb (iso_string now) (Boosts.active_until r) = true
        /\ forall x, In x (boosts t) -> Boosts.user_id x = uid ->
             String.ltb (iso_string now) (Boosts.active_until x) = true ->
             String.ltb (Boosts.active_until r) (Boosts.active_until x) = false
  | Responded 404 (Text _) =>
      forall x, In x (boosts t) -> Boosts.user_id x = uid ->
        String.ltb (iso_string now) (Boosts.active_until x) = false
  | _ => False
  end.
Proof.
  rewrite active_boost_ready. simpl.
  destruct (select_active_boost uid (iso_string now) (boosts t)) as [r|] eqn:E.
  - apply select_active_boost_some in E as (Hin & Hm & Hall).
    apply boost_matches_spec in Hm as [Hu Hlt].
    exists r. repeat split; auto.
    intros x Hx Hxu Hxlt. apply Hall; auto. apply boost_matches_spec; auto.
  - intros x Hx Hxu.
    rewrite select_active_boost_none in E. specialize (E x Hx).
    destruct (String.ltb (iso_string now) (Boosts.active_until x)) eqn:E'; auto.
    rewrite <- E. symmetry. apply boost_matches_spec; auto.
Qed.

(** C7, as stated, fails: [u1] buys a one-hour boost and a boost of
    70,000,000 hours.  The second expires in year 10009, later than the
    first and later than any query time shown, but its text starts with
    [+] and sorts below every four-digit year: a query one millisecond
    after the purchases returns the one-hour boost, and a query two hours
    later finds no active boost. *)
Lemma active_boost_misses_expiry_after_year_9999 :
  fst (two_boosts 1 70000000)
  = [Responded 200 (Json [("message", JString "User u1 registered successfully.")]);
     Responded 200 (Json [("message", JString "Added 20 tokens for user u1.")]);
     Responded 200 (Json [("message", JString "Boost short purchased for user u1.");
                          ("activeUntil", JString "2023-11-14T23:13:20.000Z")]);
     Responded 200 (Json [("message", JString "Boost long purchased for user u1.");
                          ("activeUntil", JString "+010009-06-07T14:13:20.000Z")])]
  /\ purchase_time + 1 < purchase_time + 1 * 3600000
                       < purchase_time + 70000000 * 3600000
  /\ fst (serve (apiRouter.active_boost (purchase_time + 1) "u1")
                (snd (two_boosts 1 70000000)))
     = Responded 200 (Json [("boost_type", JString "short");
                            ("active_until", JString "2023-11-14T23:13:20.000Z")])
  /\ purchase_time + 2 * 3600000 < purchase_time + 70000000 * 3600000
  /\ fst (serve (apiRouter.active_boost (purchase_time + 2 * 3600000) "u1")
                (snd (two_boosts 1 70000000)))
     = Responded 404 (Text "No active boost.").
Proof. repeat split; vm_compute; reflexivity. Qed.

(** C7, amended: timestamps are compared as ISO-8601 text.  When the
    current time lies in years 0000 to 9999 and no boost of the user
    expires after year 9999, the answer is 200 with the [boost_type] and
    [active_until] of the user's row that expires last, provided that
    row expires strictly after the current time; it is 404 when every
    row of the user has expired.  (An expiry before year 0000 is written
    with a minus sign and sorts below the current time, as it should.) *)
Theorem active_boost_returns_latest_unexpired
    (t : tables) (now : Z) (uid : string) (expiry : Boosts.row -> Z) :
  four_digit_year now ->
  (forall x, In x (boosts t) -> Boosts.user_id x = uid ->
     Boosts.active_until x = iso_string (expiry x)
     /\ YearFromTime (expiry x) <= 9999) ->
  snd (serve (apiRouter.active_boost now uid) (Ready t))
  = {| db := Ready t; issued := [SelectActiveBoost uid (iso_string now)] |}
  /\ ((fst (serve (apiRouter.active_boost now uid) (Ready t))
       = Responded 404 (Text "No active boost.")
       /\ forall x, In x (boosts t) -> Boosts.user_id x = uid -> expiry x <= now)
      \/ exists r,
           fst (serve (apiRouter.active_boost now uid) (Ready t))
           = Responded 200
               (Json [("boost_type", JString (Boosts.boost_type r));
                      ("active_until", JString (Boosts.active_until r))])
           /\ In r (boosts t) /\ Boosts.user_id r = uid
           /\ now < expiry r
           /\ forall x, In x (boosts t) -> Boosts.user_id x = uid ->
                expiry x <= expiry r).
Proof.
  intros Hnow Hrows. split; [now rewrite active_boost_ready|].
  pose proof (active_boost_greatest_text t now uid) as H.
  rewrite active_boost_ready in *. simpl in *.
  destruct (select_active_boost uid (iso_string now) (boosts t)) as [r|].
  - right. destruct H as (r' & Ho & Hin & Hu & Hlt & Hmax).
    exists r'. rewrite Ho.
    destruct (Hrows r' Hin Hu) as [Er Yr].
    rewrite Er, iso_string_after in Hlt by assumption. apply Z.ltb_lt in Hlt.
    assert (Fr : four_digit_year (expiry r'))
      by (apply (later_than_four_digit_year now); auto; lia).
    repeat split; auto.
    intros x Hx Hxu. destruct (Hrows x Hx Hxu) as [Ex Yx].
    destruct (Z_le_gt_dec (expiry x) (expiry r')) as [|Hgt]; [assumption|].
    assert (now < expiry x) as Hnx by lia.
    assert (Fx : four_digit_year (expiry x))
      by (apply (later_than_four_digit_year now); auto; lia).
    specialize (Hmax x Hx Hxu).
    rewrite Ex, iso_string_after in Hmax by assumption.
    apply Z.ltb_lt in Hnx. specialize (Hmax Hnx).
    rewrite Er, iso_string_ltb in Hmax by assumption.
    apply Z.ltb_ge in Hmax. lia.
  - left. split; [reflexivity|]. intros x Hx Hxu.
    destruct (Hrows x Hx Hxu) as [Ex Yx].
    specialize (H x Hx Hxu). rewrite Ex, iso_string_after in H by assumption.
    now apply Z.ltb_ge in H.
Qed.

Lemma active_boost_returns_latest_unexpired_witness :
  four_digit_year (purchase_time + 1)
  /\ (forall x, In x (boosts (tables_of (snd (two_boosts 1 2)))) ->
        Boosts.user_id x = "u1"%string ->
        Boosts.active_until x = iso_string (expiry_one_two x)
        /\ YearFromTime (expiry_one_two x) <= 9999)
  /\ ((fst (serve (apiRouter.active_boost (purchase_time + 1) "u1")
                  (snd (two_boosts 1 2)))
       = Responded 404 (Text "No active boost.")
       /\ forall x, In x (boosts (tables_of (snd (two_boosts 1 2)))) ->
            Boosts.user_id x = "u1"%string -> expiry_one_two x <= purchase_time + 1)
      \/ exists r,
           fst (serve (apiRouter.active_boost (purchase_time + 1) "u1")
                      (snd (two_boosts 1 2)))
           = Responded 200
               (Json [("boost_type", JString (Boosts.boost_type r));
                      ("active_until", JString (Boosts.active_until r))])
           /\ In r (boosts (tables_of (snd (two_boosts 1 2))))
           /\ Boosts.user_id r = "u1"%string
           /\ purchase_time + 1 < expiry_one_two r
           /\ forall x, In x (boosts (tables_of (snd (two_boosts 1 2)))) ->
                Boosts.user_id x = "u1"%string ->
                expiry_one_two x <= expiry_one_two r).
Proof.
  assert (Hnow : four_digit_year (purchase_time + 1))
    by (split; discriminate).
  assert (Hrows : forall x, In x (boosts (tables_of (snd (two_boosts 1 2)))) ->
            Boosts.user_id x = "u1"%string ->
            Boosts.active_until x = iso_string (expiry_one_two x)
            /\ YearFromTime (expiry_one_two x) <= 9999).
  { intros x [<-|[<-|[]]] _; (split; [reflexivity|discriminate]). }
  split; [exact Hnow|]. split; [exact Hrows|].
  exact (proj2 (active_boost_returns_latest_unexpired
    (tables_of (snd (two_boosts 1 2))) (purchase_time + 1) "u1" expiry_one_two
    Hnow Hrows)).
Defined.

(** After two purchases by a user who had no boost, both expiring within
    year 9999 at different instants, a query before the later expiry
    returns the boost that expires later. *)
Section TwoPurchases.
Variables (t : tables) (uid : string) (r : Users.row).
Variables (b1 b2 : body) (type1 type2 : string) (cost1 cost2 hours1 hours2 : Z).
Variables (now1 now2 query : Z).

Hypothesis Hrow : users t !! uid = Some r.
Hypothesis Hnone : forall x, In x (boosts t) -> Boosts.user_id x <> uid.

Hypothesis Hid1 : userId b1 = Some uid.
Hypothesis Htype1 : boostType b1 = Some type1.
Hypothesis Hcost1 : price b1 = Some cost1.
Hypothesis Hhours1 : duration b1 = Some hours1.
Hypothesis Hid2 : userId b2 = Some uid.
Hypothesis Htype2 : boostType b2 = Some type2.
Hypothesis Hcost2 : price b2 = Some cost2.
Hypothesis Hhours2 : duration b2 = Some hours2.
Hypothesis Huid : truthy uid = true.
Hypothesis Hty1 : truthy type1 = true.
Hypothesis Hty2 : truthy type2 = true.
Hypothesis Hc1 : truthy cost1 = true.
Hypothesis Hc2 : truthy cost2 = true.
Hypothesis Hh1 : truthy hours1 = true.
Hypothesis Hh2 : truthy hours2 = true.
Hypothesis Hbal1 : to_double cost1 <= to_double (Users.total_tokens r).
Hypothesis Hbal2 :
  to_double cost2 <= to_double (sql_subtract (Users.total_tokens r) cost1).

Variables expiry1 expiry2 : Z.
Hypothesis Hexpiry1 : expiry1 = now1 + hours1 * 3600000.
Hypothesis Hexpiry2 : expiry2 = now2 + hours2 * 3600000.

Hypothesis Hy1 : four_digit_year expiry1.
Hypothesis Hy2 : four_digit_year expiry2.
Hypothesis Hyq : four_digit_year query.

Lemma two_purchases_served :
  serve_all [apiRouter.buy_boost now1 b1; apiRouter.buy_boost now2 b2] (Ready t)
  = ([Responded 200
        (Json [("message",
                JString ("Boost " +:+ type1 +:+ " purchased for user " +:+ uid +:+ "."));
               ("activeUntil", JString (iso_string expiry1))]);
      Responded 200
        (Json [("message",
                JString ("Boost " +:+ type2 +:+ " purchased for user " +:+ uid +:+ "."));
               ("activeUntil", JString (iso_string expiry2))])],
     Ready (exec (InsertBoost uid type2 (iso_string expiry2))
             (exec (SubtractTokens cost2 uid)
               (exec (InsertBoost uid type1 (iso_string expiry1))
                 (exec (SubtractTokens cost1 uid) t))))).
Proof.
  subst expiry1 expiry2. cbn [serve_all].
  rewrite (buy_boost_in_range b1 uid type1 cost1 hours1 now1
             Hid1 Htype1 Hcost1 Hhours1 Huid Hty1 Hc1 Hh1 t r Hrow Hbal1
             (four_digit_year_in_range _ Hy1)).
  cbn [db].
  rewrite (buy_boost_in_range b2 uid type2 cost2 hours2 now2
             Hid2 Htype2 Hcost2 Hhours2 Huid Hty2 Hc2 Hh2 _ (subtract_tokens cost1 r)).
  - reflexivity.
  - simpl. rewrite lookup_alter_eq, Hrow. reflexivity.
  - simpl. exact Hbal2.
  - apply four_digit_year_in_range, Hy2.
Qed.

Lemma no_row_matches (now : string) :
  List.filter (boost_matches uid now) (boosts t) = [].
Proof.
  induction (boosts t) as [|x l IH]; [reflexivity|]. simpl.
  assert (boost_matches uid now x = false) as ->.
  { unfold boost_matches. rewrite bool_decide_eq_false_2; [reflexivity|].
    apply Hnone. now left. }
  apply IH. intros y Hy. apply Hnone. now right.
Qed.

Lemma active_boost_after_buying_two_boosts :
  expiry1 <> expiry2 -> query < Z.max expiry1 expiry2 ->
  fst (serve (apiRouter.active_boost query uid)
         (snd (serve_all [apiRouter.buy_boost now1 b1; apiRouter.buy_boost now2 b2]
                 (Ready t))))
  = Responded 200
      (Json [("boost_type", JString (if expiry1 <? expiry2 then type2 else type1));
             ("active_until", JString (iso_string (Z.max expiry1 expiry2)))]).
Proof.
  intros Hne Hq. rewrite two_purchases_served. cbn [snd].
  rewrite active_boost_ready. cbn [fst].
  unfold select_active_boost. simpl boosts. unfold insert_boost.
  rewrite !List.filter_app, no_row_matches. simpl.
  unfold boost_matches. simpl.
  rewrite !bool_decide_eq_true_2 by reflexivity. simpl.
  rewrite !iso_string_ltb by assumption.
  destruct (Z.ltb_spec query expiry1), (Z.ltb_spec query expiry2); simpl;
    rewrite ?iso_string_ltb by assumption;
    destruct (Z.ltb_spec expiry1 expiry2); simpl;
    rewrite ?Z.max_r, ?Z.max_l by lia; try reflexivity; lia.
Qed.
End TwoPurchases.

(** The same instance, evaluated: of the boosts bought for one and for
    two hours, the query returns the two-hour one. *)
Example active_boost_after_two_purchases :
  fst (serve (apiRouter.active_boost (purchase_time + 1) "u1") (snd (two_boosts 1 2)))
  = Responded 200 (Json [("boost_type", JString "long");
                         ("active_until", JString "2023-11-15T00:13:20.000Z")]).
Proof. vm_compute. reflexivity. Qed.

(** ** Requests in general *)

Lemma toISOString_new_Date (v : Z) :
  (Z.abs v <= max_time /\ toISOString (new_Date v) = Normal (iso_string v))
  \/ (max_time < Z.abs v
      /\ toISOString (new_Date v) = Throw (RangeError "Invalid time value")).
Proof.
  destruct (Z_le_gt_dec (Z.abs v) max_time) as [H|H]; [left|right]; split; try lia.
  - now rewrite new_Date_in_range.
  - rewrite new_Date_out_of_range by lia. reflexivity.
Qed.

(** A request leaves the database as it was or writes in one of the
    four ways. *)
Lemma step_writes (r : request) (d : database) :
  db (snd (serve (handle r) d)) = d
  \/ exists t t', d = Ready t /\ db (snd (serve (handle r) d)) = Ready t'
                 /\ writes t r t'.
Proof.
  destruct r, d; split_handler; try (left; reflexivity); right;
    eexists _, _; (split; [reflexivity|]); (split; [reflexivity|]);
    branch_facts.
  - econstructor; eauto.
  - econstructor; eauto.
  - econstructor; eauto.
  - match goal with H : toISOString (new_Date ?v) = _ |- _ =>
      destruct (toISOString_new_Date v) as [[Hr E]|[Hr E]];
        rewrite E in H; inversion H; subst
    end.
    econstructor; eauto.
Qed.

Lemma run_cons (r : request) (rs : list request) (d : database) :
  run (r :: rs) d
  = (fst (serve (handle r) d) :: fst (run rs (after r d)), snd (run rs (after r d))).
Proof.
  unfold run, after. simpl. destruct (serve (handle r) d) as [o c]. simpl.
  now destruct (serve_all (map handle rs) (db c)).
Qed.

Lemma run_app (rs1 rs2 : list request) (d : database) :
  snd (run (rs1 ++ rs2) d) = snd (run rs2 (snd (run rs1 d))).
Proof.
  revert d. induction rs1 as [|r rs1 IH]; intros d; [reflexivity|].
  rewrite <- app_comm_cons, !run_cons. simpl. apply IH.
Qed.

Lemma after_no_tables (r : request) : after r NoTables = NoTables.
Proof.
  unfold after. destruct (step_writes r NoTables) as [H|(t & t' & H & _)];
    [exact H|discriminate].
Qed.

(** A relation between databases that every single request respects
    holds across any sequence of requests. *)
Lemma run_related (R : database -> database -> Prop) :
  (forall d, R d d) -> (forall a b c, R a b -> R b c -> R a c) ->
  (forall r d, R d (after r d)) ->
  forall rs d, R d (snd (run rs d)).
Proof.
  intros Hrefl Htrans Hstep rs. induction rs as [|r rs IH]; intros d.
  - apply Hrefl.
  - rewrite run_cons. simpl. eapply Htrans; [apply Hstep|apply IH].
Qed.

(** A property of databases that every single request keeps holds after
    any sequence of requests. *)
Lemma run_invariant (P : database -> Prop) :
  (forall r d, P d -> P (after r d)) ->
  forall rs d, P d -> P (snd (run rs d)).
Proof.
  intros Hstep rs. induction rs as [|r rs IH]; intros d Hd; [exact Hd|].
  rewrite run_cons. simpl. apply IH, Hstep, Hd.
Qed.

Lemma after_cases (r : request) (d : database) :
  after r d = d
  \/ exists t t', d = Ready t /\ after r d = Ready t' /\ writes t r t'.
Proof. apply step_writes. Qed.

(** ** What the requests never do *)

Lemma writes_logs t r t' : writes t r t' -> logs t' = logs t.
Proof. now destruct 1. Qed.

Lemma writes_boosts t r t' :
  writes t r t' ->
  boosts t' = boosts t
  \/ (is_buy_boost r = true /\ exists row, boosts t' = boosts t ++ [row]).
Proof. destruct 1; simpl; eauto. Qed.

Lemma writes_dom t r t' :
  writes t r t' ->
  dom (users t) ⊆ dom (users t')
  /\ (is_register r = false -> dom (users t') = dom (users t)).
Proof.
  destruct 1; simpl.
  - split; [|discriminate]. unfold upsert_user.
    destruct (users t !! uid); rewrite dom_insert_L; set_solver.
  - rewrite dom_alter_L. split; [set_solver|reflexivity].
  - rewrite dom_alter_L. split; [set_solver|reflexivity].
  - rewrite dom_alter_L. split; [set_solver|reflexivity].
Qed.

Lemma writes_other t r t' other :
  writes t r t' -> request_user r <> Some other ->
  users t' !! other = users t !! other.
Proof.
  destruct 1; simpl; intros Hne.
  - apply upsert_other. congruence.
  - apply lookup_alter_ne. congruence.
  - apply lookup_alter_ne. congruence.
  - apply lookup_alter_ne. congruence.
Qed.

(** X1: no request writes to the [logs] table: after any sequence of
    requests it holds the rows it held before. *)
Theorem logs_are_never_written (rs : list request) (d : database) :
  logs (tables_of (snd (run rs d))) = logs (tables_of d).
Proof.
  apply (run_related (fun a b => logs (tables_of b) = logs (tables_of a)));
    [reflexivity|congruence|].
  intros r d0. destruct (after_cases r d0) as [->|(t & t' & -> & -> & Hw)];
    [reflexivity|]. simpl. eapply writes_logs, Hw.
Qed.

(** X2: boost rows are only ever appended: after any sequence of
    requests the earlier rows are still there, unchanged and in order,
    followed by at most one new row per buy-boost request. *)
Theorem boosts_are_append_only (rs : list request) (d : database) :
  exists added,
    boosts (tables_of (snd (run rs d))) = boosts (tables_of d) ++ added
    /\ (length added <= length (List.filter is_buy_boost rs))%nat.
Proof.
  revert d. induction rs as [|r rs IH]; intros d.
  - exists []. simpl. rewrite app_nil_r. split; [reflexivity|lia].
  - rewrite run_cons. cbn [snd].
    destruct (IH (after r d)) as (added & E & Hlen). rewrite E.
    destruct (after_cases r d) as [->|(t & t' & -> & -> & Hw)].
    + exists added. split; [reflexivity|]. simpl. destruct (is_buy_boost r); simpl; lia.
    + simpl tables_of. destruct (writes_boosts _ _ _ Hw) as [->|(Hb & row & ->)].
      * exists added. split; [reflexivity|]. simpl. destruct (is_buy_boost r); simpl; lia.
      * exists (row :: added). rewrite <- app_assoc. split; [reflexivity|].
        simpl. rewrite Hb. simpl. lia.
Qed.

(** X3: user rows are never deleted, and only register creates them:
    every id present before a sequence of requests is present after it,
    and without a register request the set of ids is the same. *)
Theorem users_are_never_removed (rs : list request) (d : database) :
  dom (users (tables_of d)) ⊆ dom (users (tables_of (snd (run rs d))))
  /\ (forallb (fun r => negb (is_register r)) rs = true ->
      dom (users (tables_of (snd (run rs d)))) = dom (users (tables_of d))).
Proof.
  revert d. induction rs as [|r rs IH]; intros d; [split; [set_solver|reflexivity]|].
  rewrite run_cons. cbn [snd]. destruct (IH (after r d)) as [Hsub Heq].
  assert (dom (users (tables_of d)) ⊆ dom (users (tables_of (after r d)))
          /\ (is_register r = false ->
              dom (users (tables_of (after r d))) = dom (users (tables_of d))))
    as [Hsub1 Heq1].
  { destruct (after_cases r d) as [->|(t & t' & -> & -> & Hw)];
      [split; [set_solver|reflexivity]|]. simpl. eapply writes_dom, Hw. }
  split; [etransitivity; eassumption|].
  simpl. intros [Hr Hrs]%andb_true_iff. apply negb_true_iff in Hr.
  rewrite Heq, Heq1; auto.
Qed.

(** X4: a request changes no row of [users] but the one of the user it
    names: across any sequence of requests, none of which names [other],
    the row of [other] is untouched. *)
Theorem requests_leave_other_users_alone
    (rs : list request) (d : database) (other : string) :
  (forall r, In r rs -> request_user r <> Some other) ->
  users (tables_of (snd (run rs d))) !! other = users (tables_of d) !! other.
Proof.
  revert d. induction rs as [|r rs IH]; intros d Hrs; [reflexivity|].
  rewrite run_cons. cbn [snd]. rewrite IH by (intros; apply Hrs; now right).
  destruct (after_cases r d) as [->|(t & t' & -> & -> & Hw)]; [reflexivity|].
  simpl. eapply writes_other; [exact Hw|]. apply Hrs. now left.
Qed.

Lemma requests_leave_other_users_alone_witness :
  (forall r, In r [PostClick (click_request "u2" 7);
                   PostClaimTokens (claim_request "u2" 3);
                   PostRegister (register_request "u3" None)] ->
     request_user r <> Some "u1"%string)
  /\ users (tables_of (snd (run [PostClick (click_request "u2" 7);
                                 PostClaimTokens (claim_request "u2" 3);
                                 PostRegister (register_request "u3" None)]
                                (Ready one_user)))) !! "u1"%string
     = Some ann.
Proof.
  assert (H : forall r, In r [PostClick (click_request "u2" 7);
                             PostClaimTokens (claim_request "u2" 3);
                             PostRegister (register_request "u3" None)] ->
                request_user r <> Some "u1"%string).
  { intros r [<-|[<-|[<-|[]]]]; discriminate. }
  split; [exact H|].
  exact (requests_leave_other_users_alone _ (Ready one_user) "u1" H).
Defined.

Lemma writes_nonnegative t r t' :
  writes t r t' -> nonnegative_balances t ->
  (forall b reward, r = PostClick b -> clickReward b = Some reward -> 0 <= reward) ->
  nonnegative_balances t'.
Proof.
  intros Hw Hnn Hclick id row'. destruct Hw; simpl.
  - unfold upsert_user. destruct (users t !! uid) as [r0|] eqn:E;
      rewrite lookup_insert; case_decide; subst.
    + intros [= <-]. simpl. eapply Hnn, E.
    + apply Hnn.
    + intros [= <-]. simpl. lia.
    + apply Hnn.
  - rewrite lookup_alter. case_decide; subst; [|apply Hnn].
    destruct (users t !! id) as [r0|] eqn:E; simpl; [|discriminate].
    intros [= <-]. simpl. specialize (Hnn _ _ E).
    specialize (Hclick b reward eq_refl ltac:(assumption)).
    now apply sql_add_nonneg.
  - rewrite lookup_alter. case_decide; subst; [|apply Hnn].
    match goal with H : users t !! id = Some _ |- _ =>
      rewrite H; specialize (Hnn _ _ H) end.
    simpl. intros [= <-]. simpl. now apply sql_subtract_nonneg.
  - rewrite lookup_alter. case_decide; subst; [|apply Hnn].
    match goal with H : users t !! id = Some _ |- _ =>
      rewrite H; specialize (Hnn _ _ H) end.
    simpl. intros [= <-]. simpl. now apply sql_subtract_nonneg.
Qed.

(** X5: the balance checks of claim-tokens and buy-boost hold the line:
    when every balance is non-negative and no click carries a negative
    reward, every balance is non-negative after any sequence of requests
    whose fields have their documented types, whatever integers their
    amounts, prices and durations are. *)
Theorem balances_stay_nonnegative (rs : list request) (t : tables) :
  nonnegative_balances t ->
  (forall b reward, In (PostClick b) rs -> clickReward b = Some reward -> 0 <= reward) ->
  nonnegative_balances (tables_of (snd (run rs (Ready t)))).
Proof.
  revert t. induction rs as [|r rs IH]; intros t Hnn Hrs; [exact Hnn|].
  rewrite run_cons. cbn [snd].
  destruct (after_cases r (Ready t)) as [->|(t0 & t' & [= <-] & -> & Hw)].
  - apply IH; [exact Hnn|]. intros b reward Hin. apply Hrs. now right.
  - apply IH.
    + eapply writes_nonnegative; [exact Hw|exact Hnn|].
      intros b reward -> Hb. eapply Hrs; [now left|exact Hb].
    + intros b reward Hin. apply Hrs. now right.
Qed.

Lemma balances_stay_nonnegative_witness :
  nonnegative_balances one_user
  /\ nonnegative_balances
       (tables_of (snd (run [PostClaimTokens (claim_request "u1" 20);
                             PostBuyBoost purchase_time (boost_request "u1" "x2" 15 1);
                             PostClaimTokens (claim_request "u1" 1)]
                            (Ready one_user)))).
Proof.
  assert (H : nonnegative_balances one_user).
  { intros uid r Hr. unfold one_user in Hr. cbn [users] in Hr.
    apply lookup_singleton_Some in Hr as [<- <-]. discriminate. }
  split; [exact H|].
  apply (balances_stay_nonnegative _ one_user H).
  intros b reward [[=]|[[=]|[[=]|[]]]].
Defined.

(** ** Errors *)

(** X6: the only exception a request can raise is the [RangeError] of
    buy-boost.  It is raised exactly when the request passes validation,
    the balance, read as a double, covers the price, and the expiry is
    outside the range of [Date]; by then the request has issued the
    balance read and no other statement. *)
Theorem only_buy_boost_can_throw (r : request) (d : database) (e : JS.error) :
  (fst (serve (handle r) d) = Uncaught e
   <-> exists now b uid type cost hours t row,
         r = PostBuyBoost now b /\ d = Ready t
         /\ userId b = Some uid /\ boostType b = Some type
         /\ price b = Some cost /\ duration b = Some hours
         /\ truthy uid = true /\ truthy type = true
         /\ truthy cost = true /\ truthy hours = true
         /\ users t !! uid = Some row
         /\ to_double cost <= to_double (Users.total_tokens row)
         /\ max_time < Z.abs (now + hours * 3600000)
         /\ e = RangeError "Invalid time value")
  /\ (fst (serve (handle r) d) = Uncaught e ->
      exists uid, request_user r = Some uid
                  /\ issued (snd (serve (handle r) d)) = [SelectTokens uid]).
Proof.
  split; [split|].
  - destruct r, d; split_handler; try discriminate.
    intros [= <-]. branch_facts.
    match goal with H : toISOString (new_Date ?v) = _ |- _ =>
      destruct (toISOString_new_Date v) as [[Hr E]|[Hr E]];
        rewrite E in H; inversion H; subst
    end.
    repeat eexists; eauto.
  - intros (now & b & uid & type & cost & hours & t & row & -> & -> & Hid & Hty
            & Hc & Hh & Tu & Tt & Tc & Th & Hrow & Hbal & Hrange & ->).
    simpl handle.
    now rewrite (buy_boost_out_of_range b uid type cost hours now
                   Hid Hty Hc Hh Tu Tt Tc Th t row Hrow Hbal Hrange).
  - destruct r, d; split_handler; try discriminate.
    intros _. eexists. split; [eassumption|reflexivity].
Qed.

(** X7: while the tables are absent, every statement reports an error
    and every route still answers: only the health check answers 200,
    the others answer 400 or 500, and no request creates a table. *)
Theorem without_tables_only_health_succeeds (r : request) :
  exists status p,
    fst (serve (handle r) NoTables) = Responded status p
    /\ ((status = 200 /\ r = GetHealth) \/ status = 400 \/ status = 500)
    /\ after r NoTables = NoTables.
Proof.
  unfold after.
  destruct r; split_handler; eexists _, _;
    (split; [reflexivity|]); (split; [|reflexivity]); auto.
Qed.

Section BuyBoostRejected.
Variables (b : body) (uid type : string) (cost hours now : Z).
Hypothesis Hid : userId b = Some uid.
Hypothesis Htype : boostType b = Some type.
Hypothesis Hcost : price b = Some cost.
Hypothesis Hhours : duration b = Some hours.
Hypothesis Huid : truthy uid = true.
Hypothesis Hty : truthy type = true.
Hypothesis Hc : truthy cost = true.
Hypothesis Hh : truthy hours = true.

Lemma buy_boost_no_row t :
  users t !! uid = None ->
  serve (apiRouter.buy_boost now b) (Ready t)
  = (Responded 400 (Text "Insufficient tokens."),
     {| db := Ready t; issued := [SelectTokens uid] |}).
Proof.
  intros H. run_handler. rewrite Hid, Htype, Hcost, Hhours, Huid, Hty, Hc, Hh.
  simpl. rewrite H. reflexivity.
Qed.

Lemma buy_boost_insufficient t r :
  users t !! uid = Some r ->
  to_double (Users.total_tokens r) < to_double cost ->
  serve (apiRouter.buy_boost now b) (Ready t)
  = (Responded 400 (Text "Insufficient tokens."),
     {| db := Ready t; issued := [SelectTokens uid] |}).
Proof.
  intros H Hlt. run_handler. rewrite Hid, Htype, Hcost, Hhours, Huid, Hty, Hc, Hh.
  simpl. rewrite H. simpl. apply Z.ltb_lt in Hlt. rewrite Hlt. reflexivity.
Qed.
End BuyBoostRejected.

(** X8: a purchase that passes validation but whose user has no row, or
    a balance that, read as a double, is below the price, is answered
    400 "Insufficient tokens." after the balance read alone: nothing is
    deducted and no boost is inserted, whatever the duration.  A balance
    of magnitude at most 2^53 is read as it is stored. *)
Theorem buy_boost_rejects_uncovered_price
    (t : tables) (b : body) (uid type : string) (cost hours now : Z) :
  userId b = Some uid -> boostType b = Some type ->
  price b = Some cost -> duration b = Some hours ->
  truthy uid = true -> truthy type = true ->
  truthy cost = true -> truthy hours = true ->
  is_double cost ->
  (users t !! uid = None
   \/ (exists r, users t !! uid = Some r
                 /\ to_double (Users.total_tokens r) < cost)
   \/ (exists r, users t !! uid = Some r
                 /\ safe_integer (Users.total_tokens r)
                 /\ Users.total_tokens r < cost)) ->
  serve (apiRouter.buy_boost now b) (Ready t)
  = (Responded 400 (Text "Insufficient tokens."),
     {| db := Ready t; issued := [SelectTokens uid] |}).
Proof.
  intros Hid Hty Hc Hh Tu Tt Tc Th [_ Hd] [Hnone|[(r & Hrow & Hlt)|(r & Hrow & Hs & Hlt)]].
  - now apply (buy_boost_no_row b uid type cost hours now Hid Hty Hc Hh Tu Tt Tc Th).
  - apply (buy_boost_insufficient b uid type cost hours now
             Hid Hty Hc Hh Tu Tt Tc Th t r Hrow). now rewrite Hd.
  - apply (buy_boost_insufficient b uid type cost hours now
             Hid Hty Hc Hh Tu Tt Tc Th t r Hrow).
    now rewrite Hd, (to_double_safe _ Hs).
Qed.

Lemma buy_boost_rejects_uncovered_price_witness :
  (is_double 16 /\ safe_integer (Users.total_tokens ann)
   /\ Users.total_tokens ann < 16)
  /\ serve (apiRouter.buy_boost purchase_time (boost_request "u1" "x2" 16 10000000000))
           (Ready one_user)
     = (Responded 400 (Text "Insufficient tokens."),
        {| db := Ready one_user; issued := [SelectTokens "u1"] |}).
Proof.
  assert (Hd : is_double 16) by (split; reflexivity).
  assert (Hs : safe_integer (Users.total_tokens ann)) by discriminate.
  split; [repeat split; solve [reflexivity | discriminate]|].
  apply (buy_boost_rejects_uncovered_price one_user
           (boost_request "u1" "x2" 16 10000000000) "u1" "x2" 16 10000000000
           purchase_time eq_refl eq_refl eq_refl eq_refl eq_refl eq_refl eq_refl eq_refl
           Hd).
  right. right. exists ann. split; [reflexivity|]. split; [exact Hs|reflexivity].
Defined.

(** X9: on the tables of a database that is set up, claim-tokens answers
    200 exactly when the request passes validation, the user has a row
    and its balance, read as a double, is at least the amount. *)
Theorem claim_succeeds_exactly_when_covered (t : tables) (b : body) :
  (exists p, fst (serve (apiRouter.claim_tokens b) (Ready t)) = Responded 200 p)
  <-> exists uid amount row,
        userId b = Some uid /\ tokens b = Some amount
        /\ truthy uid = true /\ truthy amount = true
        /\ users t !! uid = Some row
        /\ to_double amount <= to_double (Users.total_tokens row).
Proof.
  split.
  - intros [p H]. revert H. split_handler; intros [= <-]; branch_facts.
    repeat eexists; eauto.
  - intros (uid & amount & row & Hid & Ha & Tu & Ta & Hrow & Hle).
    rewrite (claim_sufficient b uid amount Hid Ha Tu Ta t row Hrow Hle).
    eexists. reflexivity.
Qed.

(** X10: the order of the statements within a request: the balance is
    never written before it has been read in the same request, and a
    boost row is never inserted before the price has been subtracted. *)
Theorem writes_follow_the_balance_read (r : request) (d : database) :
  let l := issued (snd (serve (handle r) d)) in
  (forall amount uid, In (SubtractTokens amount uid) l ->
     exists rest, l = SelectTokens uid :: SubtractTokens amount uid :: rest)
  /\ (forall uid type until, In (InsertBoost uid type until) l ->
        exists cost, l = [SelectTokens uid; SubtractTokens cost uid;
                          InsertBoost uid type until]).
Proof.
  destruct r, d; split_handler; split; intros; cbn [In] in *;
    repeat match goal with
           | H : _ \/ _ |- _ => destruct H
           | H : False |- _ => destruct H
           end;
    match goal with
    | H : _ = SubtractTokens _ _ |- _ =>
        first [discriminate H | injection H as <- <-; eauto]
    | H : _ = InsertBoost _ _ _ |- _ =>
        first [discriminate H | injection H as <- <- <-; eauto]
    end.
Qed.

(** ** How requests compose *)

Lemma set_username_twice name r :
  set_username name (set_username name r) = set_username name r.
Proof. reflexivity. Qed.

Lemma upsert_twice (t : tables) (uid : string) (name : option string) :
  exec (UpsertUser uid name) (exec (UpsertUser uid name) t)
  = exec (UpsertUser uid name) t.
Proof.
  apply tables_eq; try reflexivity. simpl.
  unfold upsert_user at 1.
  assert (upsert_user uid name (users t) !! uid
          = Some (from_option (set_username name) (Users.inserted name)
                    (users t !! uid))) as ->
    by (unfold upsert_user; destruct (users t !! uid); apply lookup_insert_eq).
  unfold upsert_user. destruct (users t !! uid); simpl;
    now rewrite insert_insert_eq.
Qed.

(** X11: register is idempotent: sending the same registration twice
    gives the same answer both times and leaves the database as one
    registration leaves it, whatever the body and the database. *)
Theorem register_twice_is_register_once (b : body) (d : database) :
  run [PostRegister b; PostRegister b] d
  = ([fst (serve (apiRouter.register b) d); fst (serve (apiRouter.register b) d)],
     after (PostRegister b) d).
Proof.
  rewrite !run_cons. unfold run. simpl serve_all. cbn [fst snd].
  destruct (after_cases (PostRegister b) d) as [E|(t & t' & -> & E & Hw)].
  - rewrite !E. reflexivity.
  - rewrite E. inversion Hw; subst.
    unfold after. simpl handle.
    rewrite !(register_ready b uid) by assumption. cbn [fst snd db].
    now rewrite upsert_twice.
Qed.

(** X12: a click followed by a claim of the same amount is a round
    trip on the balance: for a user with a non-negative balance, when
    balance, amount and their sum have magnitude at most 2^53, both
    requests answer 200 and [total_tokens] is back at its value, with
    [total_clicks] one higher. *)
Theorem click_then_claim_restores_balance
    (t : tables) (uid : string) (amount : Z) (row : Users.row) :
  truthy uid = true -> truthy amount = true ->
  users t !! uid = Some row -> 0 <= Users.total_tokens row ->
  safe_integer (Users.total_tokens row) -> safe_integer amount ->
  safe_integer (Users.total_tokens row + amount) ->
  exists t',
    run [PostClick (click_request uid amount);
         PostClaimTokens (claim_request uid amount)] (Ready t)
    = ([Responded 200
          (Json [("message",
                  JString ("Added " +:+ number_to_string amount
                           +:+ " tokens for user " +:+ uid +:+ "."))]);
        Responded 200
          (Json [("message",
                  JString ("User " +:+ uid +:+ " claimed "
                           +:+ number_to_string amount +:+ " tokens."))])],
       Ready t')
    /\ users t' !! uid
       = Some {| Users.username := Users.username row;
                 Users.total_clicks := Users.total_clicks row + 1;
                 Users.total_tokens := Users.total_tokens row |}.
Proof.
  intros Tu Ta Hrow Hbal Hst Hsa Hss.
  assert (Hadd : sql_add (Users.total_tokens row) amount
                 = Users.total_tokens row + amount)
    by (apply sql_add_exact; left; auto).
  assert (Hsub : sql_subtract (Users.total_tokens row + amount) amount
                 = Users.total_tokens row).
  { rewrite sql_subtract_exact; [lia|]. left. repeat split; auto.
    now replace (Users.total_tokens row + amount - amount)
      with (Users.total_tokens row) by lia. }
  exists (exec (SubtractTokens amount uid) (exec (AddClick amount uid) t)).
  assert (Hmid : users (exec (AddClick amount uid) t) !! uid
                 = Some (add_click amount row))
    by (simpl; now rewrite lookup_alter_eq, Hrow).
  split.
  - rewrite !run_cons. unfold run, after. simpl handle. simpl serve_all.
    rewrite (click_ready (click_request uid amount) uid amount
               eq_refl eq_refl Tu Ta).
    cbn [fst snd db].
    rewrite (claim_sufficient (claim_request uid amount) uid amount
               eq_refl eq_refl Tu Ta _ _ Hmid).
    + reflexivity.
    + unfold add_click. cbn [Users.total_tokens].
      rewrite Hadd, !to_double_safe by assumption. lia.
  - simpl. rewrite lookup_alter_eq.
    change (alter (add_click amount) uid (users t))
      with (users (exec (AddClick amount uid) t)).
    rewrite Hmid. simpl. unfold subtract_tokens, add_click. simpl.
    now rewrite Hadd, Hsub.
Qed.

Lemma click_then_claim_restores_balance_witness :
  (0 <= Users.total_tokens ann /\ safe_integer (Users.total_tokens ann)
   /\ safe_integer 40 /\ safe_integer (Users.total_tokens ann + 40))
  /\ exists t',
       run [PostClick (click_request "u1" 40);
            PostClaimTokens (claim_request "u1" 40)] (Ready one_user)
       = ([Responded 200 (Json [("message", JString "Added 40 tokens for user u1.")]);
           Responded 200 (Json [("message", JString "User u1 claimed 40 tokens.")])],
          Ready t')
       /\ users t' !! "u1"%string
          = Some {| Users.username := Some "ann"%string;
                    Users.total_clicks := 4; Users.total_tokens := 15 |}.
Proof.
  split; [repeat split; discriminate|].
  exact (click_then_claim_restores_balance one_user "u1" 40 ann
           eq_refl eq_refl eq_refl ltac:(discriminate) ltac:(discriminate)
           ltac:(discriminate) ltac:(discriminate)).
Defined.

Lemma sum_of_positive_rewards (rewards : list Z) :
  Forall (fun reward => 0 < reward) rewards -> 0 <= foldr Z.add 0 rewards.
Proof. induction 1; simpl; lia. Qed.

(** X13: clicks add up: after a series of clicks with positive rewards
    by a registered user with a non-negative balance, as long as the
    balance stays within 2^53, [total_clicks] has grown by their number
    and [total_tokens] by the sum of the rewards. *)
Theorem clicks_accumulate (rewards : list Z) : forall (t : tables) (uid : string) (row : Users.row),
  truthy uid = true -> Forall (fun reward => 0 < reward) rewards ->
  users t !! uid = Some row ->
  0 <= Users.total_tokens row ->
  Users.total_tokens row + foldr Z.add 0 rewards <= 2 ^ 53 ->
  users (tables_of (snd (run (map (fun reward => PostClick (click_request uid reward))
                                  rewards) (Ready t)))) !! uid
  = Some {| Users.username := Users.username row;
            Users.total_clicks := Users.total_clicks row + Z.of_nat (length rewards);
            Users.total_tokens := Users.total_tokens row + foldr Z.add 0 rewards |}.
Proof.
  induction rewards as [|reward rewards IH]; intros t uid row Tu Hall Hrow Hbal Hsum.
  - simpl. rewrite Hrow. destruct row. simpl. do 2 f_equal; lia.
  - inversion Hall as [|? ? Tr Hrest]; subst.
    pose proof (sum_of_positive_rewards _ Hrest) as Hpos.
    cbn [foldr] in Hsum.
    assert (Hadd : sql_add (Users.total_tokens row) reward
                   = Users.total_tokens row + reward)
      by (apply sql_add_exact; left; unfold safe_integer; lia).
    cbn [map]. rewrite run_cons. cbn [snd]. unfold after. simpl handle.
    rewrite (click_ready (click_request uid reward) uid reward
               eq_refl eq_refl Tu (proj2 (truthy_number_nonzero reward) ltac:(lia))).
    cbn [snd db].
    rewrite (IH _ uid (add_click reward row) Tu Hrest)
      by (first [ simpl; now rewrite lookup_alter_eq, Hrow
                | unfold add_click; cbn [Users.total_tokens]; rewrite Hadd; lia ]).
    unfold add_click. cbn [Users.username Users.total_clicks Users.total_tokens
                            length foldr].
    rewrite Hadd, Nat2Z.inj_succ. do 2 f_equal; lia.
Qed.

Lemma clicks_accumulate_witness :
  (Forall (fun reward => 0 < reward) [5; 2; 7]
   /\ 0 <= Users.total_tokens ann
   /\ Users.total_tokens ann + foldr Z.add 0 [5; 2; 7] <= 2 ^ 53)
  /\ users (tables_of (snd (run (map (fun reward => PostClick (click_request "u1" reward))
                                     [5; 2; 7]) (Ready one_user)))) !! "u1"%string
     = Some {| Users.username := Some "ann"%string;
               Users.total_clicks := 6; Users.total_tokens := 29 |}.
Proof.
  assert (H : Forall (fun reward => 0 < reward) [5; 2; 7])
    by (repeat constructor).
  split; [repeat split; solve [exact H | discriminate]|].
  exact (clicks_accumulate [5; 2; 7] one_user "u1" ann eq_refl H eq_refl
           ltac:(discriminate) ltac:(discriminate)).
Defined.



(** ** Boosts over time *)

(** X15: within years 0000 to 9999 the ISO-8601 texts that buy-boost
    stores and active-boost compares order the way the instants do, and
    distinct instants have distinct texts. *)
Theorem expiry_text_order_is_time_order (a b : Z) :
  four_digit_year a -> four_digit_year b ->
  (String.ltb (iso_string a) (iso_string b) = true <-> a < b)
  /\ (iso_string a = iso_string b <-> a = b).
Proof.
  intros Ha Hb. split.
  - rewrite iso_string_ltb by assumption. apply Z.ltb_lt.
  - split; [|now intros ->]. intros E.
    assert (String.ltb (iso_string a) (iso_string b) = false) as H1
      by (rewrite E; apply string_ltb_irrefl).
    assert (String.ltb (iso_string b) (iso_string a) = false) as H2
      by (rewrite E; apply string_ltb_irrefl).
    rewrite iso_string_ltb in H1, H2 by assumption.
    apply Z.ltb_ge in H1, H2. lia.
Qed.

Lemma expiry_text_order_is_time_order_witness :
  (four_digit_year 1700000000000 /\ four_digit_year 1700003600000)
  /\ (String.ltb (iso_string 1700000000000) (iso_string 1700003600000) = true
      <-> 1700000000000 < 1700003600000)
  /\ (iso_string 1700000000000 = iso_string 1700003600000
      <-> 1700000000000 = 1700003600000).
Proof.
  assert (Ha : four_digit_year 1700000000000) by (split; discriminate).
  assert (Hb : four_digit_year 1700003600000) by (split; discriminate).
  split; [split; assumption|].
  exact (expiry_text_order_is_time_order 1700000000000 1700003600000 Ha Hb).
Defined.

Lemma after_buy_boost (t : tables) (b : body) (uid type : string)
    (cost hours now : Z) (row : Users.row) :
  userId b = Some uid -> boostType b = Some type ->
  price b = Some cost -> duration b = Some hours ->
  truthy uid = true -> truthy type = true ->
  truthy cost = true -> truthy hours = true ->
  users t !! uid = Some row -> cost <= Users.total_tokens row ->
  Z.abs (now + hours * 3600000) <= max_time ->
  after (PostBuyBoost now b) (Ready t)
  = Ready (exec (InsertBoost uid type (iso_string (now + hours * 3600000)))
             (exec (SubtractTokens cost uid) t)).
Proof.
  intros Hid Hty Hc Hh Tu Tt Tc Th Hrow Hbal Hrange. unfold after. simpl handle.
  now rewrite (buy_boost_in_range b uid type cost hours now
                 Hid Hty Hc Hh Tu Tt Tc Th t row Hrow (covered _ _ Hbal) Hrange).
Qed.

(** X16: a boost is active from its purchase until its expiry and never
    after: for a user with no other boost, and years within 0000 to 9999,
    active-boost returns the purchased boost when asked strictly before
    [now + duration * 3600000] and answers 404 from that instant on.  A
    negative duration is accepted and buys a boost that has expired
    already. *)
Theorem purchased_boost_is_active_until_expiry
    (t : tables) (b : body) (uid type : string) (cost hours now query : Z)
    (row : Users.row) :
  userId b = Some uid -> boostType b = Some type ->
  price b = Some cost -> duration b = Some hours ->
  truthy uid = true -> truthy type = true ->
  truthy cost = true -> truthy hours = true ->
  users t !! uid = Some row -> cost <= Users.total_tokens row ->
  (forall x, In x (boosts t) -> Boosts.user_id x <> uid) ->
  four_digit_year (now + hours * 3600000) -> four_digit_year query ->
  fst (serve (apiRouter.active_boost query uid) (after (PostBuyBoost now b) (Ready t)))
  = if query <? now + hours * 3600000
    then Responded 200
           (Json [("boost_type", JString type);
                  ("active_until", JString (iso_string (now + hours * 3600000)))])
    else Responded 404 (Text "No active boost.").
Proof.
  intros Hid Hty Hc Hh Tu Tt Tc Th Hrow Hbal Hnone Hy Hq.
  rewrite (after_buy_boost t b uid type cost hours now row) by
    (auto using four_digit_year_in_range).
  rewrite active_boost_ready. cbn [fst].
  unfold select_active_boost. simpl boosts. unfold insert_boost.
  rewrite List.filter_app, (no_row_matches t uid Hnone). simpl.
  unfold boost_matches. simpl.
  rewrite bool_decide_eq_true_2 by reflexivity. simpl.
  rewrite iso_string_ltb by assumption.
  now destruct (query <? now + hours * 3600000).
Qed.

Lemma purchased_boost_is_active_until_expiry_witness :
  (four_digit_year (purchase_time + -1 * 3600000) /\ four_digit_year purchase_time)
  /\ fst (serve (apiRouter.active_boost purchase_time "u1")
            (after (PostBuyBoost purchase_time (boost_request "u1" "x2" 10 (-1)))
                   (Ready one_user)))
     = Responded 404 (Text "No active boost.").
Proof.
  assert (Hy : four_digit_year (purchase_time + -1 * 3600000)) by (split; discriminate).
  assert (Hq : four_digit_year purchase_time) by (split; discriminate).
  split; [split; assumption|].
  exact (purchased_boost_is_active_until_expiry one_user
           (boost_request "u1" "x2" 10 (-1)) "u1" "x2" 10 (-1)
           purchase_time purchase_time ann
           eq_refl eq_refl eq_refl eq_refl eq_refl eq_refl eq_refl eq_refl eq_refl
           ltac:(discriminate) (fun x (H : In x []) => match H with end) Hy Hq).
Defined.



Lemma string_le_ltb_trans (a b c : string) :
  String.ltb b a = false -> String.ltb b c = true -> String.ltb a c = true.
Proof.
  intros Hab Hbc. destruct (string_ltb_false _ _ Hab) as [->|Hlt]; [exact Hbc|].
  eapply string_ltb_trans; eassumption.
Qed.

(** X18: once no boost is active, none becomes active by the passing of
    time alone: if active-boost answers 404 at one instant, it answers
    404 at every later instant on the same tables (years 0000 to 9999). *)
Theorem expired_boosts_stay_expired (t : tables) (uid : string) (earlier later : Z) :
  four_digit_year earlier -> four_digit_year later -> earlier <= later ->
  fst (serve (apiRouter.active_boost earlier uid) (Ready t))
  = Responded 404 (Text "No active boost.") ->
  fst (serve (apiRouter.active_boost later uid) (Ready t))
  = Responded 404 (Text "No active boost.").
Proof.
  intros He Hl Hle. rewrite !active_boost_ready. cbn [fst].
  destruct (select_active_boost uid (iso_string earlier) (boosts t)) eqn:E;
    [discriminate|]. intros _.
  assert (select_active_boost uid (iso_string later) (boosts t) = None) as ->;
    [|reflexivity].
  rewrite select_active_boost_none in *. intros x Hx. specialize (E x Hx).
  destruct (boost_matches uid (iso_string later) x) eqn:M; [|reflexivity].
  apply boost_matches_spec in M as [Hu Hlt].
  rewrite <- E. symmetry. apply boost_matches_spec. split; [exact Hu|].
  eapply string_le_ltb_trans; [|exact Hlt].
  rewrite iso_string_ltb by assumption. now apply Z.ltb_ge.
Qed.

Lemma expired_boosts_stay_expired_witness :
  (four_digit_year (purchase_time + 7200000)
   /\ four_digit_year (purchase_time + 9000000)
   /\ purchase_time + 7200000 <= purchase_time + 9000000)
  /\ fst (serve (apiRouter.active_boost (purchase_time + 9000000) "u1")
                (snd (two_boosts 1 2)))
     = Responded 404 (Text "No active boost.").
Proof.
  assert (He : four_digit_year (purchase_time + 7200000)) by (split; discriminate).
  assert (Hl : four_digit_year (purchase_time + 9000000)) by (split; discriminate).
  split; [repeat split; try assumption; discriminate|].
  exact (expired_boosts_stay_expired (tables_of (snd (two_boosts 1 2))) "u1"
           (purchase_time + 7200000) (purchase_time + 9000000)
           He Hl ltac:(discriminate) eq_refl).
Defined.

Lemma after_ready (r : request) (t : tables) : exists t', after r (Ready t) = Ready t'.
Proof.
  destruct (after_cases r (Ready t)) as [->|(? & t' & _ & -> & _)]; eauto.
Qed.

Lemma writes_matching_boosts t r t' uid now :
  writes t r t' -> request_user r <> Some uid ->
  List.filter (boost_matches uid now) (boosts t')
  = List.filter (boost_matches uid now) (boosts t).
Proof.
  destruct 1; simpl; intros Hne; try reflexivity.
  unfold insert_boost. rewrite List.filter_app. simpl.
  unfold boost_matches at 2. simpl.
  rewrite bool_decide_eq_false_2 by congruence. simpl. apply app_nil_r.
Qed.

Lemma active_boost_same_rows (d d' : database) (now : Z) (uid : string) :
  (d = NoTables <-> d' = NoTables) ->
  List.filter (boost_matches uid (iso_string now)) (boosts (tables_of d'))
  = List.filter (boost_matches uid (iso_string now)) (boosts (tables_of d)) ->
  fst (serve (apiRouter.active_boost now uid) d')
  = fst (serve (apiRouter.active_boost now uid) d).
Proof.
  intros Hn Hf. destruct d as [|t], d' as [|t'];
    try reflexivity; try (exfalso; destruct Hn as [H1 H2];
                          first [discriminate (H1 eq_refl)|discriminate (H2 eq_refl)]).
  rewrite !active_boost_ready. cbn [fst]. unfold select_active_boost.
  simpl in Hf. now rewrite Hf.
Qed.

(** X19: what active-boost answers for a user depends on that user's
    purchases only: across any sequence of requests that do not name the
    user, the answer at a given instant is the same before and after. *)
Theorem active_boost_ignores_other_users
    (rs : list request) (d : database) (now : Z) (uid : string) :
  (forall r, In r rs -> request_user r <> Some uid) ->
  fst (serve (apiRouter.active_boost now uid) (snd (run rs d)))
  = fst (serve (apiRouter.active_boost now uid) d).
Proof.
  revert d. induction rs as [|r rs IH]; intros d Hrs; [reflexivity|].
  rewrite run_cons. cbn [snd]. rewrite IH by (intros; apply Hrs; now right).
  destruct (after_cases r d) as [->|(t & t' & -> & -> & Hw)]; [reflexivity|].
  apply active_boost_same_rows; [split; discriminate|].
  simpl. eapply writes_matching_boosts; [exact Hw|]. apply Hrs. now left.
Qed.

Lemma active_boost_ignores_other_users_witness :
  (forall r, In r [PostRegister (register_request "u2" None);
                   PostClick (click_request "u2" 50);
                   PostBuyBoost purchase_time (boost_request "u2" "x9" 5 100)] ->
     request_user r <> Some "u1"%string)
  /\ fst (serve (apiRouter.active_boost (purchase_time + 1) "u1")
            (snd (run [PostRegister (register_request "u2" None);
                       PostClick (click_request "u2" 50);
                       PostBuyBoost purchase_time (boost_request "u2" "x9" 5 100)]
                      (snd (two_boosts 1 2)))))
     = fst (serve (apiRouter.active_boost (purchase_time + 1) "u1")
                  (snd (two_boosts 1 2))).
Proof.
  assert (H : forall r, In r [PostRegister (register_request "u2" None);
                             PostClick (click_request "u2" 50);
                             PostBuyBoost purchase_time (boost_request "u2" "x9" 5 100)] ->
                request_user r <> Some "u1"%string).
  { intros r [<-|[<-|[<-|[]]]]; discriminate. }
  split; [exact H|].
  exact (active_boost_ignores_other_users _ (snd (two_boosts 1 2))
           (purchase_time + 1) "u1" H).
Defined.

(** ** What holds in every database the requests can reach *)

Lemma writes_ids t r t' id :
  writes t r t' -> is_Some (users t' !! id) ->
  is_Some (users t !! id) \/ truthy id = true.
Proof.
  destruct 1; simpl.
  - unfold upsert_user.
    destruct (users t !! uid) eqn:E; rewrite lookup_insert; case_decide; subst; auto.
  - rewrite lookup_alter_is_Some. auto.
  - rewrite lookup_alter_is_Some. auto.
  - rewrite lookup_alter_is_Some. auto.
Qed.

(** X20: no user row with an empty id exists in any database reached
    from the fresh one, whatever requests were served, their [userId]
    being a string where there is one. *)
Theorem user_ids_are_never_empty (rs : list request) (uid : string) :
  is_Some (users (tables_of (snd (run rs fresh))) !! uid) -> truthy uid = true.
Proof.
  revert uid.
  apply (run_invariant
           (fun d => forall uid, is_Some (users (tables_of d) !! uid) -> truthy uid = true)).
  - intros r d Hd uid.
    destruct (after_cases r d) as [->|(t & t' & -> & -> & Hw)]; [apply Hd|].
    simpl. intros H. destruct (writes_ids _ _ _ _ Hw H); auto.
  - intros uid. simpl. rewrite lookup_empty. intros [? ?]. discriminate.
Qed.

Lemma user_ids_are_never_empty_witness :
  is_Some (users (tables_of (snd (run [PostRegister (register_request "" None);
                                       PostRegister (register_request "u1" None)]
                                      fresh))) !! "u1"%string)
  /\ truthy "u1"%string = true.
Proof.
  assert (H : is_Some (users (tables_of
                 (snd (run [PostRegister (register_request "" None);
                            PostRegister (register_request "u1" None)] fresh)))
               !! "u1"%string))
    by (eexists; reflexivity).
  split; [exact H|].
  exact (user_ids_are_never_empty _ "u1" H).
Defined.

Lemma writes_keep_references t r t' :
  writes t r t' -> boosts_reference_users t -> boosts_reference_users t'.
Proof.
  intros Hw Href x Hx.
  assert (forall id, is_Some (users t !! id) -> is_Some (users t' !! id)) as Hkeep.
  { intros id. rewrite <- !elem_of_dom. apply (proj1 (writes_dom _ _ _ Hw)). }
  destruct Hw; simpl in Hx; try (apply Hkeep, Href, Hx).
  unfold insert_boost in Hx. apply in_app_or in Hx as [Hx|[<-|[]]].
  - apply Hkeep, Href, Hx.
  - simpl. rewrite lookup_alter_is_Some. eauto.
Qed.

(** X21: every boost row belongs to a registered user: in any database
    reached from the fresh one, the [user_id] of each row of [boosts] has
    a row in [users], although nothing enforces the foreign key. *)
Theorem boosts_always_reference_users (rs : list request) :
  boosts_reference_users (tables_of (snd (run rs fresh))).
Proof.
  apply (run_invariant (fun d => boosts_reference_users (tables_of d))).
  - intros r d Hd.
    destruct (after_cases r d) as [->|(t & t' & -> & -> & Hw)]; [exact Hd|].
    simpl. eapply writes_keep_references; eassumption.
  - intros x [].
Qed.

Lemma writes_keep_boosts_well_formed t r t' :
  writes t r t' -> boosts_well_formed t -> boosts_well_formed t'.
Proof.
  intros Hw Hwf x Hx. destruct Hw; simpl in Hx; try (apply Hwf, Hx).
  unfold insert_boost in Hx. apply in_app_or in Hx as [Hx|[<-|[]]].
  - apply Hwf, Hx.
  - simpl. repeat split; eauto.
Qed.

(** X22: every stored boost is well formed: in any database reached
    from the fresh one by requests whose [userId] and [boostType] are
    strings and whose [price] and [duration] are integers, each row of
    [boosts] has a non-empty user and type, and its [active_until] is
    the ISO-8601 text of a time value within the range of [Date]. *)
Theorem boosts_are_always_well_formed (rs : list request) :
  boosts_well_formed (tables_of (snd (run rs fresh))).
Proof.
  apply (run_invariant (fun d => boosts_well_formed (tables_of d))).
  - intros r d Hd.
    destruct (after_cases r d) as [->|(t & t' & -> & -> & Hw)]; [exact Hd|].
    simpl. eapply writes_keep_boosts_well_formed; eassumption.
  - intros x [].
Qed.

Lemma writes_clicks t r t' uid row :
  writes t r t' -> users t !! uid = Some row ->
  exists row', users t' !! uid = Some row'
    /\ Users.total_clicks row <= Users.total_clicks row'
       <= Users.total_clicks row + (if is_click r then 1 else 0).
Proof.
  intros Hw Hrow. destruct Hw; simpl.
  - unfold upsert_user. destruct (users t !! uid0) as [r0|] eqn:E;
      rewrite lookup_insert; case_decide; subst.
    + rewrite Hrow in E. injection E as <-. eexists. split; [reflexivity|]. simpl. lia.
    + exists row. split; [assumption|lia].
    + congruence.
    + exists row. split; [assumption|lia].
  - rewrite lookup_alter. case_decide; subst; [rewrite Hrow; simpl|];
      eexists; (split; [first [reflexivity|eassumption]|]); simpl; lia.
  - rewrite lookup_alter. case_decide; subst; [rewrite Hrow; simpl|];
      eexists; (split; [first [reflexivity|eassumption]|]); simpl; lia.
  - rewrite lookup_alter. case_decide; subst; [rewrite Hrow; simpl|];
      eexists; (split; [first [reflexivity|eassumption]|]); simpl; lia.
Qed.

(** X23: [total_clicks] only counts up, and by at most one per click
    request: across any sequence of requests a user's [total_clicks] never
    decreases and grows by no more than the number of click requests. *)
Theorem total_clicks_only_counts_up (rs : list request) :
  forall (t : tables) (uid : string) (row : Users.row),
  users t !! uid = Some row ->
  exists row',
    users (tables_of (snd (run rs (Ready t)))) !! uid = Some row'
    /\ Users.total_clicks row <= Users.total_clicks row'
       <= Users.total_clicks row + Z.of_nat (length (List.filter is_click rs)).
Proof.
  induction rs as [|r rs IH]; intros t uid row Hrow.
  - exists row. simpl. split; [assumption|lia].
  - rewrite run_cons. cbn [snd].
    destruct (after_cases r (Ready t)) as [->|(t0 & t' & [= <-] & -> & Hw)].
    + destruct (IH t uid row Hrow) as (row' & E & Hb). exists row'.
      split; [exact E|]. simpl. destruct (is_click r); simpl length; lia.
    + destruct (writes_clicks _ _ _ _ _ Hw Hrow) as (row1 & E1 & Hb1).
      destruct (IH t' uid row1 E1) as (row' & E & Hb). exists row'.
      split; [exact E|]. simpl. destruct (is_click r); simpl length; lia.
Qed.

Lemma total_clicks_only_counts_up_witness :
  users one_user !! "u1"%string = Some ann
  /\ exists row',
       users (tables_of (snd (run [PostClick (click_request "u1" 5);
                                   PostClick (click_request "u1" 0);
                                   PostClaimTokens (claim_request "u1" 2)]
                                  (Ready one_user)))) !! "u1"%string = Some row'
       /\ Users.total_clicks ann <= Users.total_clicks row'
          <= Users.total_clicks ann
             + Z.of_nat (length (List.filter is_click
                                   [PostClick (click_request "u1" 5);
                                    PostClick (click_request "u1" 0);
                                    PostClaimTokens (claim_request "u1" 2)])).
Proof.
  split; [reflexivity|].
  exact (total_clicks_only_counts_up _ one_user "u1" ann eq_refl).
Defined.

(** ** Responses *)

(** X24: the status codes: a response carries 200, 400, 404 or 500;
    404 comes from the two lookups by path parameter only, and a request
    that does not respond is a buy-boost. *)
Theorem statuses_are_200_400_404_500 (r : request) (d : database) :
  match fst (serve (handle r) d) with
  | Responded status _ =>
      status = 200 \/ status = 400 \/ status = 500
      \/ (status = 404 /\ exists uid, request_user r = Some uid /\ is_get r = true)
  | Uncaught _ => is_buy_boost r = true
  end.
Proof.
  destruct r, d; split_handler; simpl; eauto 8.
Qed.

(** X25: a request that is answered 400 or 404 has changed nothing: the
    database is the one it started with, and the statements issued, if
    any, are reads. *)
Theorem rejected_requests_change_nothing
    (r : request) (d : database) (status : Z) (p : payload) :
  fst (serve (handle r) d) = Responded status p ->
  status = 400 \/ status = 404 ->
  after r d = d
  /\ forallb is_read (issued (snd (serve (handle r) d))) = true.
Proof.
  unfold after.
  destruct r, d; split_handler; intros [= <- <-] [?|?];
    try discriminate; split; reflexivity.
Qed.

Lemma rejected_requests_change_nothing_witness :
  fst (serve (handle (PostClaimTokens (claim_request "u1" 16))) (Ready one_user))
  = Responded 400 (Text "Insufficient tokens.")
  /\ after (PostClaimTokens (claim_request "u1" 16)) (Ready one_user) = Ready one_user
  /\ forallb is_read
       (issued (snd (serve (handle (PostClaimTokens (claim_request "u1" 16)))
                           (Ready one_user)))) = true.
Proof.
  split; [reflexivity|].
  exact (rejected_requests_change_nothing
           (PostClaimTokens (claim_request "u1" 16)) (Ready one_user)
           400 (Text "Insufficient tokens.") eq_refl (or_introl eq_refl)).
Defined.
